(** * RAG chatbot on OCI and Oracle 23ai: the orchestration scripts

    A shallow embedding of [config_loader.py], [ingest.py] and [main_app.py].
    The three files only sequence calls into third-party libraries
    (python-dotenv, LangChain, the OCI SDK, python-oracledb, Streamlit), so the
    embedding represents each script as a program tree over those calls and
    runs it against an arbitrary [World] that answers them.  Properties of the
    scripts are then properties of the traces and outcomes of those runs. *)

From Stdlib Require Import String Ascii List Arith Bool Lia.
From Stdlib Require Import DecimalString.
Import ListNotations.
Local Open Scope list_scope.
Local Open Scope string_scope.

(** ** Python values used by the scripts *)

(** Strings are sequences of bytes (UTF-8 for the literals of the scripts),
    so [String.length] agrees with Python's [len] on ASCII text. *)

Module Py.

(** A value that is either a [str] or [None], as [os.getenv] returns it. *)
Definition pystr := option string.

(** [bool(value)] for such a value: [None] and the empty string are falsy. *)
Definition truthy (v : pystr) : bool :=
  match v with
  | None => false
  | Some s => negb (String.eqb s EmptyString)
  end.

(** [str(value)], as an f-string formats it. *)
Definition str (v : pystr) : string :=
  match v with
  | None => "None"
  | Some s => s
  end.

(** [str(n)] for a non-negative [int]. *)
Definition str_int (n : nat) : string := NilZero.string_of_uint (Nat.to_uint n).

(** [s * n] on strings. *)
Fixpoint repeat_str (s : string) (n : nat) : string :=
  match n with
  | O => EmptyString
  | S m => s ++ repeat_str s m
  end.

Definition nl : string := String (ascii_of_nat 10) EmptyString.
Definition dq : string := String (ascii_of_nat 34) EmptyString.
Definition sq : string := String (ascii_of_nat 39) EmptyString.

(** Exception classes (subclasses of [Exception]) that the scripts raise or
    name in an [except] clause.  An exception of a subclass is recorded with
    the nearest class listed here; [OtherError] carries any other class name. *)
Inductive exn_class : Type :=
| ValueError
| KeyError
| TypeError
| IndexError
| ZeroDivisionError
| DatabaseError
| OtherError (name : string).

Record exn : Type := mk_exn { exn_cls : exn_class; exn_msg : string }.

(** [isinstance(e, oracledb.DatabaseError)] *)
Definition is_DatabaseError (e : exn) : bool :=
  match exn_cls e with
  | DatabaseError => true
  | _ => false
  end.

(** A [dict] with string keys, in insertion order (the order [items()]
    iterates in). *)
Definition dict (V : Type) := list (string * V).

Fixpoint dict_get {V} (d : dict V) (key : string) : option V :=
  match d with
  | [] => None
  | (k, v) :: rest => if String.eqb k key then Some v else dict_get rest key
  end.

Fixpoint dict_remove {V} (d : dict V) (key : string) : dict V :=
  match d with
  | [] => []
  | (k, v) :: rest => if String.eqb k key then rest else (k, v) :: dict_remove rest key
  end.

Definition keys {V} (d : dict V) : list string := map fst d.

(** BaseException subclasses that are not [Exception]s: raised by
    [sys.exit(code)] and by [st.stop()]. *)
Inductive halt : Type :=
| SystemExit (code : nat)
| StopScript.

End Py.
Import Py.

(** ** Objects of the libraries *)

(** LangChain's [Document]. *)
Record Document : Type := mk_doc {
  page_content : string;
  metadata : dict string
}.

(** [DirectoryLoader(path, glob=..., loader_cls=...)] *)
Record DirectoryLoader : Type := mk_loader {
  dl_path : string;
  dl_glob : string;
  dl_loader_cls : string
}.

(** [RecursiveCharacterTextSplitter(chunk_size=..., chunk_overlap=...)] *)
Record TextSplitter : Type := mk_splitter {
  chunk_size : nat;
  chunk_overlap : nat
}.

(** Keyword arguments of [OCIGenAIEmbeddings(...)]. *)
Record Embeddings : Type := mk_embeddings {
  emb_model_id : string;
  emb_service_endpoint : string;
  emb_compartment_id : pystr;
  emb_auth_type : string;
  emb_auth_profile : dict pystr
}.

(** Keyword arguments of [OCIGenAI(...)]; [model_kwargs] keeps its two
    entries as written in the source. *)
Record LLM : Type := mk_llm {
  llm_model_id : string;
  llm_service_endpoint : string;
  llm_compartment_id : pystr;
  llm_auth_type : string;
  llm_auth_profile : dict pystr;
  llm_model_kwargs : dict string
}.

(** Handles handed out by the database driver. *)
Record Connection : Type := mk_conn { conn_id : nat }.
Record Cursor : Type := mk_cursor { cur_conn : Connection; cur_id : nat }.

(** Keyword arguments of [OracleVS(...)]. *)
Record OracleVS : Type := mk_vs {
  client : Connection;
  embedding_function : Embeddings;
  table_name : string;
  distance_strategy : string
}.

(** [vector_store.as_retriever(search_type=..., search_kwargs={'k': ...})] *)
Record Retriever : Type := mk_retriever {
  rt_store : OracleVS;
  rt_search_type : string;
  rt_k : nat
}.

Record PromptTemplate : Type := mk_prompt {
  template : string;
  input_variables : list string
}.

(** Keyword arguments of [RetrievalQA.from_chain_type(...)]. *)
Record RetrievalQA : Type := mk_qa {
  qa_llm : LLM;
  qa_chain_type : string;
  qa_retriever : Retriever;
  qa_return_source_documents : bool;
  qa_prompt : PromptTemplate
}.

(** The dictionary [qa_chain.invoke] returns; a field is [None] when the key
    is absent. *)
Record Response : Type := mk_response {
  rsp_result : option string;
  rsp_source_documents : option (list Document)
}.

(** ** Calls into the libraries and what they answer *)

Inductive call : Type :=
| load_dotenv
| loader_load (l : DirectoryLoader)
| split_documents (sp : TextSplitter) (docs : list Document)
| new_OCIGenAIEmbeddings (e : Embeddings)
| new_OCIGenAI (l : LLM)
| oracledb_connect (user password dsn : pystr)
| new_OracleVS (vs : OracleVS)
| connection_cursor (c : Connection)
| cursor_execute (cur : Cursor) (sql : string)
| connection_commit (c : Connection)
| add_documents (vs : OracleVS) (chunks : list Document)
| cursor_fetchone (cur : Cursor)
| connection_close (c : Connection)
| as_retriever (r : Retriever)
| new_PromptTemplate (p : PromptTemplate)
| from_chain_type (qa : RetrievalQA)
| qa_invoke (qa : RetrievalQA) (query : string).

(** The type of the value a call returns when it does not raise. *)
Definition resp (c : call) : Type :=
  match c with
  | load_dotenv => bool
  | loader_load _ => list Document
  | split_documents _ _ => list Document
  | oracledb_connect _ _ _ => Connection
  | connection_cursor _ => Cursor
  | cursor_fetchone _ => option (list nat)
  | qa_invoke _ _ => Response
  | _ => unit
  end.

Inductive reply (A : Type) : Type :=
| Ok (a : A)
| Err (e : exn).
Arguments Ok {A} a.
Arguments Err {A} e.

(** Streamlit elements, in the order the script emits them. *)
Inductive ui : Type :=
| st_set_page_config (page_title page_icon layout : string)
| st_title (s : string)
| st_markdown (s : string) (unsafe_allow_html : bool)
| st_subheader (s : string)
| st_header (s : string)
| st_spinner (s : string)
| st_text_input (label placeholder key : string)
| st_button (label kind : string)
| st_info (s : string)
| st_error (s : string)
| st_warning (s : string)
| st_success (s : string)
| st_expander (s : string)
| st_text (s : string)
| st_json (d : dict string)
| st_sidebar.

(** ** Programs *)

(** A script is a tree: it returns, raises an [Exception], leaves through a
    [BaseException] ([sys.exit], [st.stop]), prints, renders, reads the
    process environment, or calls a library and continues with its reply. *)
Inductive prog (A : Type) : Type :=
| Ret (a : A)
| Raise (e : exn)
| Halt (h : halt)
| Stdout (line : string) (k : prog A)
| Render (u : ui) (k : prog A)
| Environ (key : string) (k : pystr -> prog A)
| Do (c : call) (k : reply (resp c) -> prog A).
Arguments Ret {A} a.
Arguments Raise {A} e.
Arguments Halt {A} h.
Arguments Stdout {A} line k.
Arguments Render {A} u k.
Arguments Environ {A} key k.
Arguments Do {A} c k.

Fixpoint bind {A B} (p : prog A) (f : A -> prog B) : prog B :=
  match p with
  | Ret a => f a
  | Raise e => Raise e
  | Halt h => Halt h
  | Stdout line k => Stdout line (bind k f)
  | Render u k => Render u (bind k f)
  | Environ key k => Environ key (fun v => bind (k v) f)
  | Do c k => Do c (fun r => bind (k r) f)
  end.

(** [try: p  except Exception as e: h e]; a [halt] is not an [Exception] and
    passes through. *)
Fixpoint try_except {A} (p : prog A) (h : exn -> prog A) : prog A :=
  match p with
  | Ret a => Ret a
  | Raise e => h e
  | Halt x => Halt x
  | Stdout line k => Stdout line (try_except k h)
  | Render u k => Render u (try_except k h)
  | Environ key k => Environ key (fun v => try_except (k v) h)
  | Do c k => Do c (fun r => try_except (k r) h)
  end.

(** [try: p  except: h] with a bare [except], which also catches a [halt]. *)
Fixpoint try_bare {A} (p : prog A) (h : prog A) : prog A :=
  match p with
  | Ret a => Ret a
  | Raise _ => h
  | Halt _ => h
  | Stdout line k => Stdout line (try_bare k h)
  | Render u k => Render u (try_bare k h)
  | Environ key k => Environ key (fun v => try_bare (k v) h)
  | Do c k => Do c (fun r => try_bare (k r) h)
  end.

(** [except oracledb.DatabaseError as e: h e]: other exceptions propagate. *)
Definition except_DatabaseError {A} (h : exn -> prog A) (e : exn) : prog A :=
  if is_DatabaseError e then h e else Raise e.

Definition print (line : string) : prog unit := Stdout line (Ret tt).
Definition render (u : ui) : prog unit := Render u (Ret tt).
Definition getenv (key : string) : prog pystr := Environ key (fun v => Ret v).
Definition invoke (c : call) : prog (resp c) :=
  Do c (fun r => match r with Ok v => Ret v | Err e => Raise e end).
Definition sys_exit {A} (code : nat) : prog A := Halt (SystemExit code).
Definition st_stop {A} : prog A := Halt StopScript.

(** [d[key]], raising [KeyError] when the key is absent. *)
Definition getitem {V} (d : dict V) (key : string) : prog V :=
  match dict_get d key with
  | Some v => Ret v
  | None => Raise (mk_exn KeyError (sq ++ key ++ sq))
  end.

(** [d.pop(key)]: the value, and the dictionary without the key. *)
Definition dict_pop {V} (d : dict V) (key : string) : prog (V * dict V) :=
  match dict_get d key with
  | Some v => Ret (v, dict_remove d key)
  | None => Raise (mk_exn KeyError (sq ++ key ++ sq))
  end.

Declare Scope prog_scope.
Delimit Scope prog_scope with prog.
Notation "x <- p ;; q" := (bind p (fun x => q))
  (at level 61, p at next level, right associativity) : prog_scope.
Notation "' pat <- p ;; q" := (bind p (fun x => match x with pat => q end))
  (at level 61, pat pattern, p at next level, right associativity) : prog_scope.
Notation "p ;; q" := (bind p (fun _ => q))
  (at level 61, right associativity) : prog_scope.
Local Open Scope prog_scope.

(** ** Running a program against the outside world *)

(** What a run observed, in order. *)
Inductive event : Type :=
| EvPrint (line : string)
| EvRender (u : ui)
| EvGetenv (key : string) (v : pystr)
| EvCall (c : call) (r : reply (resp c)).

Inductive outcome (A : Type) : Type :=
| Returned (a : A)
| Raised (e : exn)
| Halted (h : halt).
Arguments Returned {A} a.
Arguments Raised {A} e.
Arguments Halted {A} h.

(** The outside world: the process environment that [os.getenv] reads, and
    the libraries' answer to each call together with the state they leave. *)
Record World : Type := mk_world {
  state : Type;
  environ : state -> string -> pystr;
  handle : forall c : call, state -> reply (resp c) * state
}.

Record Run (S A : Type) : Type := mk_run {
  trace : list event;
  outcome_of : outcome A;
  final : S
}.
Arguments mk_run {S A} trace outcome_of final.
Arguments trace {S A} r.
Arguments outcome_of {S A} r.
Arguments final {S A} r.

Definition after {S A} (ev : event) (r : Run S A) : Run S A :=
  mk_run (ev :: trace r) (outcome_of r) (final r).

Section Running.
Variable W : World.

Fixpoint run {A} (p : prog A) (s : state W) : Run (state W) A :=
  match p with
  | Ret a => mk_run [] (Returned a) s
  | Raise e => mk_run [] (Raised e) s
  | Halt h => mk_run [] (Halted h) s
  | Stdout line k => after (EvPrint line) (run k s)
  | Render u k => after (EvRender u) (run k s)
  | Environ key k =>
      let v := environ W s key in after (EvGetenv key v) (run (k v) s)
  | Do c k =>
      let '(r, s') := handle W c s in after (EvCall c r) (run (k r) s')
  end.
End Running.
Arguments run W {A} p s.

(** ** config_loader.py *)

Module config_loader.

Definition missing_oci (key : string) : exn :=
  mk_exn ValueError
    ("Missing required OCI configuration: " ++ key ++ ". "
     ++ "Please check your .env file and ensure all OCI_* variables are set.").

Definition missing_db (key : string) : exn :=
  mk_exn ValueError
    ("Missing required database configuration: " ++ key ++ ". "
     ++ "Please check your .env file and ensure all DB_* variables are set.").

(** [for key, value in d.items(): if not value: raise ValueError(...)] *)
Fixpoint check_items (missing : string -> exn) (items : dict pystr) : prog unit :=
  match items with
  | [] => Ret tt
  | (key, value) :: rest =>
      if truthy value then check_items missing rest else Raise (missing key)
  end.

Definition load_config : prog (dict pystr * dict pystr) :=
  invoke load_dotenv ;;
  print "Loading configuration from .env file..." ;;
  user <- getenv "OCI_USER_ID" ;;
  tenancy <- getenv "OCI_TENANCY_ID" ;;
  region <- getenv "OCI_REGION" ;;
  fingerprint <- getenv "OCI_KEY_FINGERPRINT" ;;
  key_file <- getenv "OCI_PRIVATE_KEY_PATH" ;;
  compartment_id <- getenv "COMPARTMENT_ID" ;;
  let oci_config :=
    [ ("user", user); ("tenancy", tenancy); ("region", region);
      ("fingerprint", fingerprint); ("key_file", key_file);
      ("compartment_id", compartment_id) ] in
  db_user <- getenv "DB_USER" ;;
  db_password <- getenv "DB_PASSWORD" ;;
  db_dsn <- getenv "DB_DSN" ;;
  let db_config :=
    [ ("DB_USER", db_user); ("DB_PASSWORD", db_password); ("DB_DSN", db_dsn) ] in
  check_items missing_oci oci_config ;;
  check_items missing_db db_config ;;
  print "✓ Configuration loaded successfully!" ;;
  oci_region <- getitem oci_config "region" ;;
  print ("  - OCI Region: " ++ str oci_region) ;;
  user_name <- getitem db_config "DB_USER" ;;
  print ("  - DB User: " ++ str user_name) ;;
  Ret (oci_config, db_config).

End config_loader.

(** ** ingest.py *)

Module ingest.

Definition rule : string := repeat_str "=" 60.

Definition DROP_SQL : string := "DROP TABLE rag_documents PURGE".
Definition COUNT_SQL : string := "SELECT COUNT(*) FROM rag_documents".

(** [doc.metadata.get('source', 'Unknown')] *)
Definition source_of (doc : Document) : string :=
  match dict_get (metadata doc) "source" with
  | Some s => s
  | None => "Unknown"
  end.

(** [for i, doc in enumerate(documents, i): print(...)] *)
Fixpoint list_documents (i : nat) (documents : list Document) : prog unit :=
  match documents with
  | [] => Ret tt
  | doc :: rest =>
      print ("   - Document " ++ str_int i ++ ": " ++ source_of doc
             ++ " (" ++ str_int (String.length (page_content doc)) ++ " characters)") ;;
      list_documents (S i) rest
  end.

(** [sum(len(c.page_content) for c in chunks)] *)
Definition total_length (chunks : list Document) : nat :=
  fold_right (fun c acc => String.length (page_content c) + acc) 0 chunks.

(** [a // b] on non-negative integers. *)
Definition floordiv (a b : nat) : prog nat :=
  match b with
  | O => Raise (mk_exn ZeroDivisionError "integer division or modulo by zero")
  | S _ => Ret (a / b)
  end.

(** [row[0]] on what [fetchone()] returned. *)
Definition first_column (row : option (list nat)) : prog nat :=
  match row with
  | None => Raise (mk_exn TypeError "'NoneType' object is not subscriptable")
  | Some [] => Raise (mk_exn IndexError "tuple index out of range")
  | Some (x :: _) => Ret x
  end.

Definition endpoint (region : pystr) : string :=
  "https://inference.generativeai." ++ str region ++ ".oci.oraclecloud.com".

(** Step 7: the inner [try] that drops the table and its
    [except oracledb.DatabaseError] clause. *)
Definition clear_existing (connection : Connection) : prog unit :=
  try_except
    (cursor <- invoke (connection_cursor connection) ;;
     invoke (cursor_execute cursor DROP_SQL) ;;
     invoke (connection_commit connection) ;;
     print ("✓ Existing table dropped" ++ nl))
    (except_DatabaseError (fun _ =>
       print ("✓ No existing table to drop (this is normal on first run)" ++ nl))).

(** The body of the outer [try] of [run_ingestion], steps 1 to 9. *)
Definition ingestion_steps : prog unit :=
  print "📋 Step 1: Loading configuration from .env file..." ;;
  '(oci_config0, db_config) <- config_loader.load_config ;;
  '(compartment_id, oci_config) <- dict_pop oci_config0 "compartment_id" ;;
  print ("✓ Configuration loaded successfully" ++ nl) ;;
  print "📂 Step 2: Loading documents from ./data folder..." ;;
  let loader := mk_loader "./data" "**/*.txt" "TextLoader" in
  documents <- invoke (loader_load loader) ;;
  match documents with
  | [] =>
      print "⚠️  WARNING: No documents found in ./data folder!" ;;
      print "   Please add .txt files to the ./data folder and try again." ;;
      sys_exit 1
  | _ :: _ =>
  print ("✓ Loaded " ++ str_int (length documents) ++ " document(s)") ;;
  list_documents 1 documents ;;
  print EmptyString ;;
  print "✂️  Step 3: Splitting documents into chunks..." ;;
  let text_splitter := mk_splitter 1000 200 in
  chunks <- invoke (split_documents text_splitter documents) ;;
  print ("✓ Created " ++ str_int (length chunks) ++ " chunk(s) from "
         ++ str_int (length documents) ++ " document(s)") ;;
  average <- floordiv (total_length chunks) (length chunks) ;;
  print ("   Average chunk size: " ++ str_int average ++ " characters" ++ nl) ;;
  print "🧠 Step 4: Initializing OCI Embeddings model..." ;;
  region <- getitem oci_config "region" ;;
  let oci_embeddings :=
    mk_embeddings "cohere.embed-english-v3.0" (endpoint region)
                  compartment_id "API_KEY" oci_config in
  invoke (new_OCIGenAIEmbeddings oci_embeddings) ;;
  print "✓ Using embedding model: cohere.embed-english-v3.0" ;;
  region' <- getitem oci_config "region" ;;
  print ("   Region: " ++ str region' ++ nl) ;;
  print "🗄️  Step 5: Connecting to Oracle 23ai Vector Database..." ;;
  db_user <- getitem db_config "DB_USER" ;;
  db_password <- getitem db_config "DB_PASSWORD" ;;
  db_dsn <- getitem db_config "DB_DSN" ;;
  connection <- invoke (oracledb_connect db_user db_password db_dsn) ;;
  db_user' <- getitem db_config "DB_USER" ;;
  print ("✓ Connected to Oracle Database as " ++ str db_user' ++ nl) ;;
  print "🔧 Step 6: Initializing Oracle Vector Store..." ;;
  let vector_store := mk_vs connection oci_embeddings "rag_documents" "COSINE" in
  invoke (new_OracleVS vector_store) ;;
  print "✓ Vector store initialized with table: rag_documents" ;;
  print ("   Distance strategy: COSINE (measures angle between vectors)" ++ nl) ;;
  print "🗑️  Step 7: Clearing any existing data in the table..." ;;
  clear_existing connection ;;
  print "💾 Step 8: Adding documents to vector store..." ;;
  print "   This will:" ;;
  print "   1. Create embeddings for each chunk (calls OCI API)" ;;
  print "   2. Store embeddings + text in Oracle Database" ;;
  print "   3. Create vector index for fast similarity search" ;;
  print (nl ++ "   ⏳ This may take 30-60 seconds depending on document size..." ++ nl) ;;
  invoke (add_documents vector_store chunks) ;;
  print ("✓ Successfully added " ++ str_int (length chunks) ++ " chunks to vector store!") ;;
  print (nl ++ "🔍 Step 9: Verifying ingestion...") ;;
  cursor <- invoke (connection_cursor connection) ;;
  invoke (cursor_execute cursor COUNT_SQL) ;;
  row <- invoke (cursor_fetchone cursor) ;;
  count <- first_column row ;;
  print ("✓ Verification complete: " ++ str_int count ++ " records in database") ;;
  invoke (connection_close connection) ;;
  print (nl ++ rule) ;;
  print "✅ INGESTION COMPLETE!" ;;
  print rule ;;
  print (nl ++ "Your RAG system is now ready to use.") ;;
  print "Next step: Run the Streamlit app with:" ;;
  print "   streamlit run main_app.py" ;;
  print EmptyString
  end.

(** The [except Exception as e] clause of [run_ingestion]. *)
Definition report_failure (e : exn) : prog unit :=
  print (nl ++ rule) ;;
  print "❌ ERROR DURING INGESTION" ;;
  print rule ;;
  print (nl ++ "Error details: " ++ exn_msg e) ;;
  print (nl ++ "Common issues:") ;;
  print "  1. Check your .env file - are all credentials correct?" ;;
  print "  2. Is your Oracle Database accessible from this network?" ;;
  print "  3. Do you have files in the ./data folder?" ;;
  print "  4. Are your OCI credentials valid and do you have proper permissions?" ;;
  print EmptyString ;;
  sys_exit 1.

Definition run_ingestion : prog unit :=
  print (nl ++ rule) ;;
  print "🚀 STARTING DATA INGESTION PIPELINE" ;;
  print (rule ++ nl) ;;
  try_except ingestion_steps report_failure.

End ingest.

(** ** main_app.py *)

Module main_app.

Definition COUNT_SQL : string := "SELECT COUNT(*) FROM rag_documents".

Definition prompt_template : string :=
  String.concat nl
    [ "You are a helpful AI assistant answering questions about Oracle Cloud Infrastructure (OCI).";
      EmptyString;
      "Use the following pieces of context to answer the question at the end.";
      "If you don't know the answer based on the context provided, just say " ++ dq ++ "I don't have enough information in my knowledge base to answer that question." ++ dq ++ " ";
      "Do NOT make up an answer or use information outside of the provided context.";
      EmptyString;
      "Context:";
      "{context}";
      EmptyString;
      "Question: {question}";
      EmptyString;
      "Helpful Answer:" ].

Definition intro_text : string :=
  String.concat nl
    [ EmptyString;
      "Ask me anything about **Oracle Cloud Infrastructure (OCI)**! ";
      EmptyString;
      "I will search through our knowledge base and provide answers based **only** on the documents I have access to. ";
      "This means I won't hallucinate or make up information - if I don't know, I'll tell you!";
      EmptyString ].

Definition sources_note : string :=
  String.concat nl
    [ EmptyString;
      "            <small>These are the document chunks that were retrieved from the database ";
      "            and used to generate the answer above. This transparency helps you verify ";
      "            the answer and shows you where to look for more information.</small>";
      "            " ].

Definition tips_text : string :=
  String.concat nl
    [ EmptyString;
      "                **Common issues:**";
      "                1. **Connection timeout**: Check your network connection and OCI credentials";
      "                2. **Database error**: Make sure you ran `ingest.py` successfully";
      "                3. **Rate limiting**: OCI API has rate limits - wait a moment and try again";
      "                4. **Invalid credentials**: Verify your `.env` file has correct values";
      "                " ].

Definition about_text : string :=
  String.concat nl
    [ EmptyString;
      "    This is a **Retrieval-Augmented Generation (RAG)** chatbot that answers questions ";
      "    about Oracle Cloud Infrastructure.";
      "    ";
      "    ### How it works:";
      "    ";
      "    1. 🔍 **Your question** is converted to a vector";
      "    2. 🗄️ **Oracle Database** finds similar document chunks";
      "    3. 🤖 **OCI LLM** generates an answer using those chunks";
      "    4. ✅ **You get** a factual, grounded answer!";
      "    ";
      "    ### Why RAG?";
      "    ";
      "    Traditional chatbots can " ++ dq ++ "hallucinate" ++ dq ++ " (make up information). ";
      "    RAG solves this by:";
      "    - ✅ Only using your private documents";
      "    - ✅ Providing source citations";
      "    - ✅ Being transparent about what it knows";
      "    ";
      "    ### Technology Stack:";
      "    - **LangChain**: RAG orchestration";
      "    - **OCI Generative AI**: Embeddings & LLM";
      "    - **Oracle 23ai**: Vector database";
      "    - **Streamlit**: Web interface";
      "    " ].

Definition examples_text : string :=
  String.concat nl
    [ EmptyString;
      "    ### 💡 Example Questions:";
      "    - What is Oracle Cloud Infrastructure?";
      "    - What are the benefits of OCI Compute?";
      "    - How does OCI ensure security?";
      "    - What types of compute instances does OCI offer?";
      "    " ].

Definition footer_text : string :=
  String.concat nl
    [ EmptyString;
      "<div style='text-align: center'>";
      "    <small>Built with ❤️ using LangChain, OCI Generative AI, and Oracle 23ai Vector Search</small>";
      "</div>";
      EmptyString ].

Definition rule : string := repeat_str "=" 60.

Definition endpoint (region : pystr) : string :=
  "https://inference.generativeai." ++ str region ++ ".oci.oraclecloud.com".

(** What [initialize_services] returns: [(qa_chain, vector_store)]. *)
Definition services : Type := (RetrievalQA * OracleVS)%type.

(** [row[0]] on what [fetchone()] returned. *)
Definition first_column (row : option (list nat)) : prog nat :=
  match row with
  | None => Raise (mk_exn TypeError "'NoneType' object is not subscriptable")
  | Some [] => Raise (mk_exn IndexError "tuple index out of range")
  | Some (x :: _) => Ret x
  end.

(** The inner [try] of [initialize_services] that checks the table. *)
Definition verify_table (cursor : Cursor) : prog unit :=
  try_except
    (invoke (cursor_execute cursor COUNT_SQL) ;;
     row <- invoke (cursor_fetchone cursor) ;;
     doc_count <- first_column row ;;
     print ("   ✓ Connected! Found " ++ str_int doc_count ++ " documents in database"))
    (except_DatabaseError (fun _ =>
       render (st_error "❌ The 'rag_documents' table doesn't exist! Did you run ingest.py first?") ;;
       sys_exit 1)).

(** The body of the [try] of [initialize_services]. *)
Definition initialization_steps : prog services :=
  '(oci_config0, db_config) <- config_loader.load_config ;;
  '(compartment_id, oci_config) <- dict_pop oci_config0 "compartment_id" ;;
  print "   Loading embeddings model..." ;;
  region <- getitem oci_config "region" ;;
  let oci_embeddings :=
    mk_embeddings "cohere.embed-english-v3.0" (endpoint region)
                  compartment_id "API_KEY" oci_config in
  invoke (new_OCIGenAIEmbeddings oci_embeddings) ;;
  print "   Loading LLM (Cohere Command)..." ;;
  region' <- getitem oci_config "region" ;;
  let oci_llm :=
    mk_llm "cohere.command-r-plus" (endpoint region') compartment_id "API_KEY"
           oci_config [("max_tokens", "500"); ("temperature", "0.3")] in
  invoke (new_OCIGenAI oci_llm) ;;
  print "   Connecting to Oracle Vector Database..." ;;
  db_user <- getitem db_config "DB_USER" ;;
  db_password <- getitem db_config "DB_PASSWORD" ;;
  db_dsn <- getitem db_config "DB_DSN" ;;
  connection <- invoke (oracledb_connect db_user db_password db_dsn) ;;
  cursor <- invoke (connection_cursor connection) ;;
  verify_table cursor ;;
  let vector_store := mk_vs connection oci_embeddings "rag_documents" "COSINE" in
  invoke (new_OracleVS vector_store) ;;
  let retriever := mk_retriever vector_store "similarity" 3 in
  invoke (as_retriever retriever) ;;
  let PROMPT := mk_prompt prompt_template ["context"; "question"] in
  invoke (new_PromptTemplate PROMPT) ;;
  print "   Building RAG chain..." ;;
  let qa_chain := mk_qa oci_llm "stuff" retriever true PROMPT in
  invoke (from_chain_type qa_chain) ;;
  print ("✅ Initialization complete!" ++ nl) ;;
  Ret (qa_chain, vector_store).

Definition initialize_services : prog services :=
  print "🔧 Initializing services (this happens once)..." ;;
  try_except initialization_steps
    (fun e =>
       render (st_error ("❌ Failed to initialize services: " ++ exn_msg e)) ;;
       st_stop).

(** [@st.cache_resource] on a function without arguments: the stored value
    is returned when there is one; otherwise the function runs and its
    return value is stored.  Nothing is stored when the function does not
    return. *)
Definition cache_resource {A} (cache : option A) (f : prog A) : prog (A * option A) :=
  match cache with
  | Some v => Ret (v, cache)
  | None => v <- f ;; Ret (v, Some v)
  end.

(** [for i, doc in enumerate(source_docs, i): with st.expander(...): ...] *)
Fixpoint show_sources (i : nat) (source_docs : list Document) : prog unit :=
  match source_docs with
  | [] => Ret tt
  | doc :: rest =>
      render (st_expander ("📄 Source " ++ str_int i ++ ": " ++ ingest.source_of doc)) ;;
      render (st_markdown "**Content:**" false) ;;
      render (st_text (page_content doc)) ;;
      render (st_markdown "**Metadata:**" false) ;;
      render (st_json (metadata doc)) ;;
      show_sources (S i) rest
  end.

(** The body of the [try] that processes a submitted question. *)
Definition answer_steps (qa_chain : RetrievalQA) (user_question : string) : prog unit :=
  print (nl ++ rule) ;;
  print ("📝 New question: " ++ user_question) ;;
  print (rule ++ nl) ;;
  response <- invoke (qa_invoke qa_chain user_question) ;;
  print ("✅ Response generated successfully" ++ nl) ;;
  render (st_markdown "### 📖 Answer" false) ;;
  answer <- match rsp_result response with
            | Some a => Ret a
            | None => Raise (mk_exn KeyError (sq ++ "result" ++ sq))
            end ;;
  render (st_info answer) ;;
  render (st_markdown "---" false) ;;
  render (st_markdown "### 📚 Sources Used" false) ;;
  render (st_markdown sources_note true) ;;
  let source_docs :=
    match rsp_source_documents response with
    | Some docs => docs
    | None => []
    end in
  match source_docs with
  | _ :: _ => show_sources 1 source_docs
  | [] => render (st_warning "⚠️ No source documents were returned. This is unusual!")
  end ;;
  print ("Used " ++ str_int (length source_docs) ++ " source document(s)" ++ nl).

(** The [except Exception as e] clause of the question block. *)
Definition show_failure (e : exn) : prog unit :=
  render (st_error ("❌ An error occurred while processing your question: " ++ exn_msg e)) ;;
  print ("❌ Error: " ++ exn_msg e ++ nl) ;;
  render (st_expander "🔧 Troubleshooting Tips") ;;
  render (st_markdown tips_text false).

(** The [if ask_button and user_question: ... elif ...] statement. *)
Definition question_block (qa_chain : RetrievalQA) (user_question : string)
    (ask_button : bool) : prog unit :=
  if ask_button && negb (String.eqb user_question EmptyString) then
    render (st_spinner "🤔 Thinking... (retrieving documents and generating answer)") ;;
    try_except (answer_steps qa_chain user_question) show_failure
  else if ask_button && String.eqb user_question EmptyString then
    render (st_warning "⚠️ Please enter a question before clicking 'Get Answer'")
  else Ret tt.

(** The [with st.sidebar:] block. *)
Definition sidebar (vector_store : OracleVS) : prog unit :=
  render st_sidebar ;;
  render (st_header "ℹ️ About This App") ;;
  render (st_markdown about_text false) ;;
  render (st_markdown "---" false) ;;
  render (st_markdown examples_text false) ;;
  render (st_markdown "---" false) ;;
  render (st_markdown "### 📊 System Status" false) ;;
  try_bare
    (cursor <- invoke (connection_cursor (client vector_store)) ;;
     invoke (cursor_execute cursor COUNT_SQL) ;;
     row <- invoke (cursor_fetchone cursor) ;;
     doc_count <- first_column row ;;
     render (st_success ("✅ " ++ str_int doc_count ++ " documents in knowledge base")))
    (render (st_error "❌ Cannot connect to database")).

(** The statements that obtain the services: the cached call inside the
    spinner, and the [except Exception] clause around it. *)
Definition startup (cache : option services) : prog (services * option services) :=
  try_except
    (render (st_spinner "🔧 Initializing RAG system...") ;;
     cache_resource cache initialize_services)
    (fun e =>
       render (st_error ("Failed to initialize: " ++ exn_msg e)) ;;
       st_stop).

(** One execution of the script, top to bottom.  [cache] is the store of
    [st.cache_resource] when the execution starts; [user_question] and
    [ask_button] are what the two widgets return in this execution.  The
    result is the store when the execution ends. *)
Definition script (cache : option services) (user_question : string)
    (ask_button : bool) : prog (option services) :=
  render (st_set_page_config "OCI RAG Chatbot" "🤖" "wide") ;;
  render (st_title "🤖 OCI RAG Chatbot") ;;
  render (st_markdown intro_text false) ;;
  render (st_markdown "---" false) ;;
  '(svc, cache') <- startup cache ;;
  let '(qa_chain, vector_store) := svc in
  render (st_subheader "💬 Ask a Question") ;;
  render (st_text_input "Type your question here:"
            "Example: What are the benefits of OCI Compute?" "question_input") ;;
  render (st_button "🔍 Get Answer" "primary") ;;
  question_block qa_chain user_question ask_button ;;
  sidebar vector_store ;;
  render (st_markdown "---" false) ;;
  render (st_markdown footer_text true) ;;
  Ret cache'.

End main_app.

(** ** What a trace shows *)

(** The library calls of a trace, in order, whether they raised or not. *)
Fixpoint calls (tr : list event) : list call :=
  match tr with
  | [] => []
  | EvCall c _ :: rest => c :: calls rest
  | _ :: rest => calls rest
  end.

(** The environment variables a trace read, in order. *)
Fixpoint getenv_reads (tr : list event) : list string :=
  match tr with
  | [] => []
  | EvGetenv key _ :: rest => key :: getenv_reads rest
  | _ :: rest => getenv_reads rest
  end.

(** The lines a trace printed, in order. *)
Fixpoint printed (tr : list event) : list string :=
  match tr with
  | [] => []
  | EvPrint line :: rest => line :: printed rest
  | _ :: rest => printed rest
  end.

(** The Streamlit elements a trace rendered, in order. *)
Fixpoint rendered (tr : list event) : list ui :=
  match tr with
  | [] => []
  | EvRender u :: rest => u :: rendered rest
  | _ :: rest => rendered rest
  end.

Definition raised_by (ev : event) : option (call * exn) :=
  match ev with
  | EvCall c (Err e) => Some (c, e)
  | _ => None
  end.

(** Every call of a trace that raised, with the exception and with the
    events that followed it. *)
Fixpoint failures (tr : list event) : list (call * exn * list event) :=
  match tr with
  | [] => []
  | ev :: rest =>
      match raised_by ev with
      | Some (c, e) => (c, e, rest) :: failures rest
      | None => failures rest
      end
  end.

(** ** Composing runs *)

(** Continue a run with what follows a statement that returned. *)
Definition and_then {S A B} (r : Run S A) (k : A -> S -> Run S B) : Run S B :=
  match outcome_of r with
  | Returned a =>
      let r2 := k a (final r) in
      mk_run (trace r ++ trace r2)%list (outcome_of r2) (final r2)
  | Raised e => mk_run (trace r) (Raised e) (final r)
  | Halted h => mk_run (trace r) (Halted h) (final r)
  end.

(** A run that comes after the events [tr]. *)
Definition prepend {S A} (tr : list event) (r : Run S A) : Run S A :=
  mk_run (tr ++ trace r)%list (outcome_of r) (final r).

(** Continue a run with the handler of an [except Exception] clause. *)
Definition or_else {S A} (r : Run S A) (h : exn -> S -> Run S A) : Run S A :=
  match outcome_of r with
  | Raised e =>
      let r2 := h e (final r) in
      mk_run (trace r ++ trace r2)%list (outcome_of r2) (final r2)
  | _ => r
  end.

(** ** A concrete world

    One world to run the scripts in: a process environment and a [.env] file,
    the text files under [./data], and a database with named tables.  The
    libraries behave in it as the scripts' comments describe them:
    [add_documents] creates the table when it is missing and inserts one row
    per chunk; [DROP TABLE] raises a [DatabaseError] when the table is missing,
    and also when another session holds a lock on it. *)

Module Reference.

Record State : Type := mk_state {
  os_environ : dict string;
  dotenv_file : dict string;
  data_files : list Document;
  db_up : bool;
  llm_up : bool;
  tables : dict (list Document);
  locked : list string;
  fetched : dict (list nat);
  next_handle : nat
}.

Definition set_environ (s : State) (env : dict string) : State :=
  mk_state env (dotenv_file s) (data_files s) (db_up s) (llm_up s) (tables s)
           (locked s) (fetched s) (next_handle s).

Definition set_tables (s : State) (t : dict (list Document)) : State :=
  mk_state (os_environ s) (dotenv_file s) (data_files s) (db_up s) (llm_up s) t
           (locked s) (fetched s) (next_handle s).

Definition set_fetched (s : State) (f : dict (list nat)) : State :=
  mk_state (os_environ s) (dotenv_file s) (data_files s) (db_up s) (llm_up s)
           (tables s) (locked s) f (next_handle s).

Definition bump (s : State) : State :=
  mk_state (os_environ s) (dotenv_file s) (data_files s) (db_up s) (llm_up s)
           (tables s) (locked s) (fetched s) (S (next_handle s)).

(** [load_dotenv()] adds the variables of the file that the environment
    does not define yet. *)
Fixpoint merge_dotenv (env file : dict string) : dict string :=
  match file with
  | [] => env
  | (k, v) :: rest =>
      match dict_get env k with
      | Some _ => merge_dotenv env rest
      | None => merge_dotenv (env ++ [(k, v)])%list rest
      end
  end.

(** Windows of [size] characters, each starting [size - overlap] after the
    one before; a text of at most [size] characters is one chunk and an
    empty text gives none. *)
Fixpoint windows (fuel size overlap : nat) (text : string) : list string :=
  match fuel with
  | O => []
  | S fuel' =>
      if Nat.eqb (String.length text) 0 then []
      else if Nat.leb (String.length text) size then [text]
      else substring 0 size text
           :: windows fuel' size overlap
                (substring (size - overlap) (String.length text - (size - overlap)) text)
  end.

Definition split_one (sp : TextSplitter) (doc : Document) : list Document :=
  map (fun text => mk_doc text (metadata doc))
      (windows (String.length (page_content doc)) (chunk_size sp) (chunk_overlap sp)
               (page_content doc)).

Definition db_error (msg : string) : exn := mk_exn DatabaseError msg.

Definition name_key (cur : Cursor) : string := str_int (cur_id cur).

Definition mem (x : string) (l : list string) : bool := existsb (String.eqb x) l.

Definition execute (cur : Cursor) (sql : string) (s : State) : reply unit * State :=
  if String.eqb sql "DROP TABLE rag_documents PURGE" then
    match dict_get (tables s) "rag_documents" with
    | None => (Err (db_error "ORA-00942: table or view does not exist"), s)
    | Some _ =>
        if mem "rag_documents" (locked s)
        then (Err (db_error "ORA-00054: resource busy and acquire with NOWAIT specified or timeout expired"), s)
        else (Ok tt, set_tables s (dict_remove (tables s) "rag_documents"))
    end
  else if String.eqb sql "SELECT COUNT(*) FROM rag_documents" then
    match dict_get (tables s) "rag_documents" with
    | None => (Err (db_error "ORA-00942: table or view does not exist"), s)
    | Some rows =>
        (Ok tt, set_fetched s ((name_key cur, [length rows])
                               :: dict_remove (fetched s) (name_key cur)))
    end
  else (Err (db_error "ORA-00900: invalid SQL statement"), s).

Definition insert_rows (table : string) (rows : list Document) (s : State) : State :=
  match dict_get (tables s) table with
  | None => set_tables s ((tables s) ++ [(table, rows)])%list
  | Some old => set_tables s ((table, (old ++ rows)%list) :: dict_remove (tables s) table)
  end.

Definition answer (qa : RetrievalQA) (query : string) (s : State) : reply Response * State :=
  if llm_up s then
    match dict_get (tables s) (table_name (rt_store (qa_retriever qa))) with
    | None => (Err (db_error "ORA-00942: table or view does not exist"), s)
    | Some rows =>
        (Ok (mk_response (Some ("Answer to: " ++ query))
                         (Some (firstn (rt_k (qa_retriever qa)) rows))), s)
    end
  else (Err (mk_exn (OtherError "ServiceError") "429 Too Many Requests"), s).

Definition respond (c : call) : State -> reply (resp c) * State :=
  match c as c0 return State -> reply (resp c0) * State with
  | load_dotenv => fun s =>
      (Ok (negb (Nat.eqb (length (dotenv_file s)) 0)),
       set_environ s (merge_dotenv (os_environ s) (dotenv_file s)))
  | loader_load _ => fun s => (Ok (data_files s), s)
  | split_documents sp docs => fun s => (Ok (flat_map (split_one sp) docs), s)
  | new_OCIGenAIEmbeddings _ => fun s => (Ok tt, s)
  | new_OCIGenAI _ => fun s => (Ok tt, s)
  | oracledb_connect _ _ _ => fun s =>
      if db_up s then (Ok (mk_conn (next_handle s)), bump s)
      else (Err (db_error "ORA-12541: TNS:no listener"), s)
  | new_OracleVS _ => fun s => (Ok tt, s)
  | connection_cursor c => fun s => (Ok (mk_cursor c (next_handle s)), bump s)
  | cursor_execute cur sql => execute cur sql
  | connection_commit _ => fun s => (Ok tt, s)
  | add_documents vs chunks => fun s => (Ok tt, insert_rows (table_name vs) chunks s)
  | cursor_fetchone cur => fun s =>
      (Ok (dict_get (fetched s) (name_key cur)),
       set_fetched s (dict_remove (fetched s) (name_key cur)))
  | connection_close _ => fun s => (Ok tt, s)
  | as_retriever _ => fun s => (Ok tt, s)
  | new_PromptTemplate _ => fun s => (Ok tt, s)
  | from_chain_type _ => fun s => (Ok tt, s)
  | qa_invoke qa query => answer qa query
  end.

Definition world : World :=
  mk_world State (fun s key => dict_get (os_environ s) key) respond.

(** A complete [.env] file. *)
Definition env_file : dict string :=
  [ ("OCI_USER_ID", "ocid1.user.oc1..aaaa");
    ("OCI_TENANCY_ID", "ocid1.tenancy.oc1..bbbb");
    ("OCI_REGION", "us-chicago-1");
    ("OCI_KEY_FINGERPRINT", "12:34:56:78");
    ("OCI_PRIVATE_KEY_PATH", "~/.oci/key.pem");
    ("COMPARTMENT_ID", "ocid1.compartment.oc1..cccc");
    ("DB_USER", "ADMIN");
    ("DB_PASSWORD", "secret");
    ("DB_DSN", "localhost:1521/FREEPDB1") ].

Definition compute_txt : Document :=
  mk_doc "OCI Compute offers virtual machines and bare metal instances."
         [("source", "data/compute.txt")].

Definition storage_txt : Document :=
  mk_doc "OCI Object Storage keeps unstructured data of any content type."
         [("source", "data/storage.txt")].

Definition old_row : Document :=
  mk_doc "A chunk stored by an earlier run." [("source", "data/old.txt")].

(** First run: two files to ingest, the database is up and has no table. *)
Definition fresh : State :=
  mk_state [] env_file [compute_txt; storage_txt] true true [] [] [] 0.

(** A later run: the table holds a row of an earlier run. *)
Definition populated : State :=
  mk_state [] env_file [compute_txt; storage_txt] true true
           [("rag_documents", [old_row])] [] [] 0.



(** Nothing under [./data]. *)
Definition no_data : State :=
  mk_state [] env_file [] true true [("rag_documents", [old_row])] [] [] 0.

(** [DB_PASSWORD] is set to the empty string and [DB_DSN] is not set. *)
Definition incomplete : State :=
  mk_state [("DB_PASSWORD", EmptyString)]
           (firstn 8 env_file) [compute_txt] true true [] [] [] 0.

(** The table is filled, the language model refuses requests. *)
Definition llm_down : State :=
  mk_state [] env_file [] true false [("rag_documents", [compute_txt; storage_txt])] [] [] 0.

(** The table is filled and every service answers. *)
Definition serving : State :=
  mk_state [] env_file [] true true [("rag_documents", [compute_txt; storage_txt])] [] [] 0.

End Reference.



(** ** Vocabulary for the properties *)

(** The (key, value) pairs a trace read from the environment, in order. *)
Fixpoint environment_reads (tr : list event) : dict pystr :=
  match tr with
  | [] => []
  | EvGetenv key v :: rest => (key, v) :: environment_reads rest
  | _ :: rest => environment_reads rest
  end.

(** A variable that is not set, or set to the empty string. *)
Definition unset_or_empty (v : pystr) : Prop := v = None \/ v = Some EmptyString.

Module config_vocabulary.

(** The keys of the OCI dictionary with the variable each one is read from,
    in the order the dictionary is built. *)
Definition oci_variables : list (string * string) :=
  [ ("user", "OCI_USER_ID"); ("tenancy", "OCI_TENANCY_ID"); ("region", "OCI_REGION");
    ("fingerprint", "OCI_KEY_FINGERPRINT"); ("key_file", "OCI_PRIVATE_KEY_PATH");
    ("compartment_id", "COMPARTMENT_ID") ].

(** The same for the database dictionary. *)
Definition db_variables : list (string * string) :=
  [ ("DB_USER", "DB_USER"); ("DB_PASSWORD", "DB_PASSWORD"); ("DB_DSN", "DB_DSN") ].

(** The nine required variables. *)
Definition required_variables : list string :=
  map snd (oci_variables ++ db_variables)%list.

(** The dictionary key of the first required variable, in that order, that
    is unset or empty in [env]. *)
Definition first_missing (env : string -> pystr) : option string :=
  option_map fst
    (find (fun kv => negb (truthy (env (snd kv)))) (oci_variables ++ db_variables)%list).

(** The error that names [key]. *)
Definition missing (key : string) : exn :=
  if existsb (String.eqb key) (map fst oci_variables) then config_loader.missing_oci key
  else config_loader.missing_db key.

(** A dictionary whose values are read from [env]. *)
Definition config_of (env : string -> pystr) (vars : list (string * string)) : dict pystr :=
  map (fun kv => (fst kv, env (snd kv))) vars.

(** The events of [load_config] once [load_dotenv()] has returned [b]. *)
Definition load_config_trace (env : string -> pystr) (b : bool) : list event :=
  (EvCall load_dotenv (Ok b)
   :: EvPrint "Loading configuration from .env file..."
   :: map (fun var => EvGetenv var (env var)) required_variables
   ++ match first_missing env with
      | Some _ => []
      | None =>
          [ EvPrint "✓ Configuration loaded successfully!";
            EvPrint ("  - OCI Region: " ++ str (env "OCI_REGION"));
            EvPrint ("  - DB User: " ++ str (env "DB_USER")) ]
      end)%list.

End config_vocabulary.

Module ingest_vocabulary.

(** The five stages of ingestion, each with what the call received and
    returned. *)
Inductive stage : Type :=
| StLoad (directory : string) (documents : list Document)
| StSplit (documents chunks : list Document)
| StEmbed (model : Embeddings)
| StStore (store : OracleVS) (chunks : list Document)
| StVerify (sql : string).

(** The stage a call that returned belongs to: loading is
    [loader.load()], splitting is [split_documents], embedding is the
    construction of the embedding model that the vector store is given,
    storing is [add_documents] (which embeds the chunks with that model and
    inserts them), verifying is the execution of the counting query.
    Reading the configuration, connecting, building the vector store and
    clearing the table belong to no stage. *)
Definition stage_of (ev : event) : option stage :=
  match ev with
  | EvCall c r =>
      match c as c0 return reply (resp c0) -> option stage with
      | loader_load l => fun r =>
          match r with Ok documents => Some (StLoad (dl_path l) documents) | Err _ => None end
      | split_documents _ documents => fun r =>
          match r with Ok chunks => Some (StSplit documents chunks) | Err _ => None end
      | new_OCIGenAIEmbeddings model => fun r =>
          match r with Ok _ => Some (StEmbed model) | Err _ => None end
      | add_documents store chunks => fun r =>
          match r with Ok _ => Some (StStore store chunks) | Err _ => None end
      | cursor_execute _ sql => fun r =>
          match r with
          | Ok _ => if String.eqb sql ingest.COUNT_SQL then Some (StVerify sql) else None
          | Err _ => None
          end
      | _ => fun _ => None
      end r
  | _ => None
  end.

Fixpoint stages (tr : list event) : list stage :=
  match tr with
  | [] => []
  | ev :: rest =>
      match stage_of ev with
      | Some st => st :: stages rest
      | None => stages rest
      end
  end.

(** The lines [list_documents] prints. *)
Fixpoint document_lines (i : nat) (documents : list Document) : list string :=
  match documents with
  | [] => []
  | doc :: rest =>
      ("   - Document " ++ str_int i ++ ": " ++ ingest.source_of doc
       ++ " (" ++ str_int (String.length (page_content doc)) ++ " characters)")
      :: document_lines (S i) rest
  end.

(** The three lines [run_ingestion] prints before its [try]. *)
Definition banner : list event :=
  [ EvPrint (nl ++ ingest.rule);
    EvPrint "🚀 STARTING DATA INGESTION PIPELINE";
    EvPrint (ingest.rule ++ nl) ].

(** The lines the [except Exception as e] clause prints. *)
Definition failure_lines (e : exn) : list string :=
  [ nl ++ ingest.rule;
    "❌ ERROR DURING INGESTION";
    ingest.rule;
    nl ++ "Error details: " ++ exn_msg e;
    nl ++ "Common issues:";
    "  1. Check your .env file - are all credentials correct?";
    "  2. Is your Oracle Database accessible from this network?";
    "  3. Do you have files in the ./data folder?";
    "  4. Are your OCI credentials valid and do you have proper permissions?";
    EmptyString ].



End ingest_vocabulary.

(** ** Postconditions of runs *)

Section Postconditions.
Variable W : World.

(** [wp p s Q]: the run of [p] from [s] ends with a trace, an outcome and a
    state that satisfy [Q], whatever the libraries answer in [W]. *)
Fixpoint wp {A} (p : prog A) (s : state W)
    (Q : list event -> outcome A -> state W -> Prop) : Prop :=
  match p with
  | Ret a => Q [] (Returned a) s
  | Raise e => Q [] (Raised e) s
  | Halt h => Q [] (Halted h) s
  | Stdout line k => wp k s (fun tr => Q (EvPrint line :: tr))
  | Render u k => wp k s (fun tr => Q (EvRender u :: tr))
  | Environ key k =>
      wp (k (environ W s key)) s (fun tr => Q (EvGetenv key (environ W s key) :: tr))
  | Do c k =>
      forall r s', handle W c s = (r, s') -> wp (k r) s' (fun tr => Q (EvCall c r :: tr))
  end.

End Postconditions.
Arguments wp W {A} p s Q.

Module app_vocabulary.
Import main_app.

(** The calls that build the services: everything [initialize_services]
    calls before it checks the table, and the constructors after it. *)
Definition is_initialization (c : call) : bool :=
  match c with
  | load_dotenv => true
  | new_OCIGenAIEmbeddings _ => true
  | new_OCIGenAI _ => true
  | oracledb_connect _ _ _ => true
  | new_OracleVS _ => true
  | as_retriever _ => true
  | new_PromptTemplate _ => true
  | from_chain_type _ => true
  | _ => false
  end.

(** The calls of the status query of the sidebar, which only reads. *)
Definition is_status_query (c : call) : bool :=
  match c with
  | connection_cursor _ => true
  | cursor_execute _ sql => String.eqb sql COUNT_SQL
  | cursor_fetchone _ => true
  | _ => false
  end.

(** The retrieval-and-generation requests of a trace: the chain each
    [qa_chain.invoke] was sent to, and the query. *)
Fixpoint requests (tr : list event) : list (RetrievalQA * string) :=
  match tr with
  | [] => []
  | EvCall (qa_invoke qa query) _ :: rest => (qa, query) :: requests rest
  | _ :: rest => requests rest
  end.

(** What the script renders before it obtains the services. *)
Definition page_head : list event :=
  [ EvRender (st_set_page_config "OCI RAG Chatbot" "🤖" "wide");
    EvRender (st_title "🤖 OCI RAG Chatbot");
    EvRender (st_markdown intro_text false);
    EvRender (st_markdown "---" false) ].

(** The input widgets. *)
Definition widgets : list event :=
  [ EvRender (st_subheader "💬 Ask a Question");
    EvRender (st_text_input "Type your question here:"
                "Example: What are the benefits of OCI Compute?" "question_input");
    EvRender (st_button "🔍 Get Answer" "primary") ].

Definition thinking : event :=
  EvRender (st_spinner "🤔 Thinking... (retrieving documents and generating answer)").

(** What the [except Exception as e] clause of the question block shows. *)
Definition failure_display (e : exn) : list event :=
  [ EvRender (st_error ("❌ An error occurred while processing your question: " ++ exn_msg e));
    EvPrint ("❌ Error: " ++ exn_msg e ++ nl);
    EvRender (st_expander "🔧 Troubleshooting Tips");
    EvRender (st_markdown tips_text false) ].

(** What the script renders after the sidebar. *)
Definition page_foot : list event :=
  [ EvRender (st_markdown "---" false);
    EvRender (st_markdown footer_text true) ].

(** The elements [show_sources] renders. *)
Fixpoint source_elements (i : nat) (source_docs : list Document) : list ui :=
  match source_docs with
  | [] => []
  | doc :: rest =>
      st_expander ("📄 Source " ++ str_int i ++ ": " ++ ingest.source_of doc)
      :: st_markdown "**Content:**" false
      :: st_text (page_content doc)
      :: st_markdown "**Metadata:**" false
      :: st_json (metadata doc)
      :: source_elements (S i) rest
  end.

(** What [st.cache_resource] holds after an execution of the script: the
    store the execution ended with, or the store it started with when it
    stopped before it obtained the services. *)
Definition store_after (cache : option services) (o : outcome (option services))
    : option services :=
  match o with
  | Returned cache' => cache'
  | _ => cache
  end.

Section Sessions.
Variable W : World.



End Sessions.

End app_vocabulary.

Module ReferenceApp.

(** The store of [st.cache_resource] after a first execution of the script
    in the concrete world with the table filled. *)
Definition store : option main_app.services :=
  Eval vm_compute in
    app_vocabulary.store_after None
      (outcome_of (run Reference.world (main_app.script None EmptyString false)
                       Reference.serving)).

End ReferenceApp.

(** ** config_loader.py run as a script *)

Module config_loader_script.

(** [repr] of a [str] that holds no quote, backslash or control character. *)
Definition repr_str (s : string) : string := sq ++ s ++ sq.

(** [repr] of a list of such strings, as [print] shows [list(d.keys())]. *)
Definition repr_list (l : list string) : string :=
  "[" ++ String.concat ", " (map repr_str l) ++ "]".

(** The clauses [except ValueError as e] and [except Exception as e]. *)
Definition report (e : exn) : prog unit :=
  match exn_cls e with
  | ValueError => print (nl ++ "✗ Configuration Error: " ++ exn_msg e)
  | _ => print (nl ++ "✗ Unexpected Error: " ++ exn_msg e)
  end.

(** The block under [if __name__ == "__main__":]. *)
Definition main : prog unit :=
  print (nl ++ "=== Testing Configuration Loader ===" ++ nl) ;;
  try_except
    ('(oci_cfg, db_cfg) <- config_loader.load_config ;;
     print (nl ++ "✓ All configurations loaded successfully!") ;;
     print (nl ++ "OCI Config Keys: " ++ repr_list (keys oci_cfg)) ;;
     print ("DB Config Keys: " ++ repr_list (keys db_cfg)))
    report.

End config_loader_script.

(** ** ingest.py run as a script *)

Module ingest_script.

(** The block under [if __name__ == "__main__":]. *)
Definition main : prog unit := ingest.run_ingestion.

End ingest_script.

(** ** Further vocabulary *)

Module wiring.

(** The embedding model both scripts build from the configuration. *)
Definition embeddings_for (env : string -> pystr) : Embeddings :=
  mk_embeddings "cohere.embed-english-v3.0"
    ("https://inference.generativeai." ++ str (env "OCI_REGION") ++ ".oci.oraclecloud.com")
    (env "COMPARTMENT_ID") "API_KEY"
    [ ("user", env "OCI_USER_ID"); ("tenancy", env "OCI_TENANCY_ID");
      ("region", env "OCI_REGION"); ("fingerprint", env "OCI_KEY_FINGERPRINT");
      ("key_file", env "OCI_PRIVATE_KEY_PATH") ].

(** The language model the chat app builds from the configuration. *)
Definition llm_for (env : string -> pystr) : LLM :=
  mk_llm "cohere.command-r-plus"
    ("https://inference.generativeai." ++ str (env "OCI_REGION") ++ ".oci.oraclecloud.com")
    (env "COMPARTMENT_ID") "API_KEY"
    [ ("user", env "OCI_USER_ID"); ("tenancy", env "OCI_TENANCY_ID");
      ("region", env "OCI_REGION"); ("fingerprint", env "OCI_KEY_FINGERPRINT");
      ("key_file", env "OCI_PRIVATE_KEY_PATH") ]
    [ ("max_tokens", "500"); ("temperature", "0.3") ].

(** The vector store on the table [rag_documents] over a connection. *)
Definition store_for (env : string -> pystr) (connection : Connection) : OracleVS :=
  mk_vs connection (embeddings_for env) "rag_documents" "COSINE".

(** The chain the chat app builds over a vector store. *)
Definition chain_for (env : string -> pystr) (store : OracleVS) : RetrievalQA :=
  mk_qa (llm_for env) "stuff" (mk_retriever store "similarity" 3) true
        (mk_prompt main_app.prompt_template ["context"; "question"]).

(** A call whose arguments are the ones the configuration in [env]
    determines. *)
Definition configured_from (env : string -> pystr) (c : call) : Prop :=
  match c with
  | new_OCIGenAIEmbeddings e => e = embeddings_for env
  | new_OCIGenAI l => l = llm_for env
  | oracledb_connect user password dsn =>
      user = env "DB_USER" /\ password = env "DB_PASSWORD" /\ dsn = env "DB_DSN"
  | new_OracleVS vs => vs = store_for env (client vs)
  | add_documents vs _ => vs = store_for env (client vs)
  | as_retriever r => r = mk_retriever (store_for env (client (rt_store r))) "similarity" 3
  | from_chain_type qa =>
      qa = chain_for env (store_for env (client (rt_store (qa_retriever qa))))
  | _ => True
  end.

(** The connections a trace opened, in order. *)
Fixpoint opened (tr : list event) : list Connection :=
  match tr with
  | [] => []
  | EvCall (oracledb_connect _ _ _) (Ok connection) :: rest => connection :: opened rest
  | _ :: rest => opened rest
  end.

(** The connections a trace closed, in order. *)
Fixpoint closed (tr : list event) : list Connection :=
  match tr with
  | [] => []
  | EvCall (connection_close connection) (Ok _) :: rest => connection :: closed rest
  | _ :: rest => closed rest
  end.

(** A call that changes the database: inserting rows, committing, or
    executing a statement other than the counting query. *)
Definition is_write (c : call) : bool :=
  match c with
  | add_documents _ _ => true
  | connection_commit _ => true
  | cursor_execute _ sql => negb (String.eqb sql main_app.COUNT_SQL)
  | _ => false
  end.

(** The last [n] elements of a list. *)
Definition lastn {A} (n : nat) (l : list A) : list A := rev (firstn n (rev l)).

End wiring.

(** More states of the concrete world. *)

Module Scenarios.

(** The only file under [./data] is empty. *)
Definition blank_file : Reference.State :=
  Reference.mk_state [] Reference.env_file
    [mk_doc EmptyString [("source", "data/empty.txt")]]
    true true [("rag_documents", [Reference.old_row])] [] [] 0.

(** The table was never created. *)
Definition no_table : Reference.State :=
  Reference.mk_state [] Reference.env_file [] true true [] [] [] 0.

End Scenarios.

Module app_more_vocabulary.

(** The two calls of the table check of [initialize_services]. *)
Definition is_table_check (c : call) : bool :=
  match c with
  | cursor_execute _ sql => String.eqb sql main_app.COUNT_SQL
  | cursor_fetchone _ => true
  | _ => false
  end.

Definition initializing : event :=
  EvRender (st_spinner "🔧 Initializing RAG system...").

Definition table_missing : ui :=
  st_error "❌ The 'rag_documents' table doesn't exist! Did you run ingest.py first?".


Definition empty_question : ui :=
  st_warning "⚠️ Please enter a question before clicking 'Get Answer'".

End app_more_vocabulary.

(** ** Laws of traces and runs *)

Arguments String.append : simpl never.

Lemma calls_app (t1 t2 : list event) : calls (t1 ++ t2)%list = (calls t1 ++ calls t2)%list.
Proof.
  induction t1 as [|ev t1 IH]; simpl; [reflexivity|].
  destruct ev; simpl; rewrite IH; reflexivity.
Qed.

Lemma calls_prints (lines : list string) (tr : list event) :
  calls (map EvPrint lines ++ tr)%list = calls tr.
Proof. induction lines; simpl; auto. Qed.

Lemma calls_renders (us : list ui) (tr : list event) :
  calls (map EvRender us ++ tr)%list = calls tr.
Proof. induction us; simpl; auto. Qed.


Lemma and_then_after {S A B} ev (r : Run S A) (k : A -> S -> Run S B) :
  and_then (after ev r) k = after ev (and_then r k).
Proof. unfold and_then, after; simpl. destruct (outcome_of r); reflexivity. Qed.

Lemma or_else_after {S A} ev (r : Run S A) (h : exn -> S -> Run S A) :
  or_else (after ev r) h = after ev (or_else r h).
Proof.
  unfold or_else, after; simpl. destruct r as [tr o s]; destruct o; reflexivity.
Qed.

Section RunLaws.
Variable W : World.

Lemma run_bind {A B} (p : prog A) (f : A -> prog B) (s : state W) :
  run W (bind p f) s = and_then (run W p s) (fun a s' => run W (f a) s').
Proof.
  revert s; induction p as [a|e|h|line k IH|u k IH|key k IH|c k IH]; intro s; simpl.
  - unfold and_then; simpl. destruct (run W (f a) s); reflexivity.
  - reflexivity.
  - reflexivity.
  - rewrite IH, and_then_after; reflexivity.
  - rewrite IH, and_then_after; reflexivity.
  - rewrite IH, and_then_after; reflexivity.
  - destruct (handle W c s) as [r s']. rewrite IH, and_then_after; reflexivity.
Qed.

Lemma run_try_except {A} (p : prog A) (h : exn -> prog A) (s : state W) :
  run W (try_except p h) s = or_else (run W p s) (fun e s' => run W (h e) s').
Proof.
  revert s; induction p as [a|e|x|line k IH|u k IH|key k IH|c k IH]; intro s; simpl.
  - reflexivity.
  - unfold or_else; simpl. destruct (run W (h e) s); reflexivity.
  - reflexivity.
  - rewrite IH, or_else_after; reflexivity.
  - rewrite IH, or_else_after; reflexivity.
  - rewrite IH, or_else_after; reflexivity.
  - destruct (handle W c s) as [r s']. rewrite IH, or_else_after; reflexivity.
Qed.

Lemma run_render_then {A} (u : ui) (k : prog A) (s : state W) :
  run W (render u ;; k) s = after (EvRender u) (run W k s).
Proof. reflexivity. Qed.

Lemma run_print_then {A} (line : string) (k : prog A) (s : state W) :
  run W (print line ;; k) s = after (EvPrint line) (run W k s).
Proof. reflexivity. Qed.

End RunLaws.

Lemma and_then_extends {S A B} (r : Run S A) (k : A -> S -> Run S B) :
  exists more, trace (and_then r k) = (trace r ++ more)%list.
Proof.
  unfold and_then. destruct (outcome_of r); simpl; eauto.
  exists []. rewrite app_nil_r. reflexivity.
  exists []. rewrite app_nil_r. reflexivity.
Qed.

Lemma or_else_extends {S A} (r : Run S A) (h : exn -> S -> Run S A) :
  exists more, trace (or_else r h) = (trace r ++ more)%list.
Proof.
  unfold or_else. destruct (outcome_of r); simpl; eauto.
  exists []. rewrite app_nil_r. reflexivity.
  exists []. rewrite app_nil_r. reflexivity.
Qed.

Lemma and_then_returns {S A B} (r : Run S A) (k : A -> S -> Run S B) (b : B) :
  outcome_of (and_then r k) = Returned b ->
  exists a, outcome_of r = Returned a /\ outcome_of (k a (final r)) = Returned b.
Proof.
  unfold and_then. destruct (outcome_of r) as [a|e|h]; simpl; intro H;
    try discriminate. exists a; split; [reflexivity|assumption].
Qed.

Lemma and_then_returned {S A B} (r : Run S A) (k : A -> S -> Run S B) (a : A) :
  outcome_of r = Returned a ->
  and_then r k = prepend (trace r) (k a (final r)).
Proof. intro H. unfold and_then. rewrite H. reflexivity. Qed.

(** ** config_loader.py *)

Lemma truthy_false (v : pystr) : truthy v = false <-> unset_or_empty v.
Proof.
  unfold unset_or_empty; destruct v as [s|]; simpl.
  - destruct s; simpl; split; intro H; try discriminate; auto.
    destruct H as [H|H]; discriminate.
  - split; auto.
Qed.

Lemma truthy_true (v : pystr) : truthy v = true <-> ~ unset_or_empty v.
Proof.
  rewrite <- truthy_false. destruct (truthy v); split; intro H; congruence.
Qed.

Lemma truthy_some (v : pystr) : truthy v = true -> exists text, v = Some text.
Proof. destruct v as [text|]; [eauto | discriminate]. Qed.

Lemma find_none_forall {A} (p : A -> bool) (l : list A) :
  find p l = None <-> Forall (fun x => p x = false) l.
Proof.
  induction l as [|x l IH]; simpl.
  - split; auto.
  - destruct (p x) eqn:E.
    + split; [discriminate|]. intro H; inversion H; congruence.
    + rewrite IH. split; intro H; [constructor; assumption | inversion H; assumption].
Qed.

Module config_loader_facts.
Import config_loader config_vocabulary.

(** What [load_config] does once [load_dotenv()] has returned. *)
Lemma run_load_config (W : World) (s s1 : state W) (b : bool) :
  handle W load_dotenv s = (Ok b, s1) ->
  run W load_config s =
  mk_run (load_config_trace (environ W s1) b)
         match first_missing (environ W s1) with
         | Some key => Raised (missing key)
         | None => Returned (config_of (environ W s1) oci_variables,
                             config_of (environ W s1) db_variables)
         end
         s1.
Proof.
  intros E; unfold load_config, load_config_trace; simpl. rewrite E; simpl.
  unfold first_missing; simpl.
  repeat match goal with
         | |- context [truthy ?v] => destruct (truthy v); simpl; try reflexivity
         end.
Qed.

(** When [load_dotenv()] raises, so does [load_config], before it reads
    anything. *)
Lemma run_load_config_dotenv_fails (W : World) (s s1 : state W) (e : exn) :
  handle W load_dotenv s = (Err e, s1) ->
  run W load_config s = mk_run [EvCall load_dotenv (Err e)] (Raised e) s1.
Proof. intro E; unfold load_config; simpl; rewrite E; reflexivity. Qed.

Lemma first_missing_none (env : string -> pystr) :
  first_missing env = None <->
  Forall (fun var => truthy (env var) = true) required_variables.
Proof.
  unfold first_missing, required_variables.
  destruct (find _ _) as [kv|] eqn:F; cbn [option_map].
  - split; [discriminate|]. intro H. exfalso.
    apply find_some in F. destruct F as [Hin Hp].
    apply (in_map snd) in Hin.
    pose proof (proj1 (Forall_forall _ _) H (snd kv) Hin) as T.
    rewrite T in Hp; discriminate.
  - split; auto. intros _. apply find_none_forall in F.
    rewrite Forall_map. revert F. apply Forall_impl. intros kv H.
    destruct (truthy (env (snd kv))); [reflexivity|discriminate].
Qed.


Lemma missing_is_ValueError (key : string) : exn_cls (missing key) = ValueError.
Proof. unfold missing. destruct (existsb _ _); reflexivity. Qed.

Lemma calls_load_config (W : World) (s : state W) :
  calls (trace (run W load_config s)) = [load_dotenv].
Proof.
  destruct (handle W load_dotenv s) as [[b|e] s1] eqn:E.
  - rewrite (run_load_config W s s1 b E). unfold load_config_trace; simpl.
    destruct (first_missing _); reflexivity.
  - rewrite (run_load_config_dotenv_fails W s s1 e E). reflexivity.
Qed.

(** C3. When [load_config] returns, it has read the nine variables
    [OCI_USER_ID], [OCI_TENANCY_ID], [OCI_REGION], [OCI_KEY_FINGERPRINT],
    [OCI_PRIVATE_KEY_PATH], [COMPARTMENT_ID], [DB_USER], [DB_PASSWORD] and
    [DB_DSN] from the environment, and its result is a pair of dictionaries:
    the first with exactly the keys [user], [tenancy], [region],
    [fingerprint], [key_file], [compartment_id], the second with exactly the
    keys [DB_USER], [DB_PASSWORD], [DB_DSN], each value being the string read
    for the corresponding variable. *)
Theorem load_config_result (W : World) (s : state W) (oci_config db_config : dict pystr) :
  outcome_of (run W load_config s) = Returned (oci_config, db_config) ->
  exists user tenancy region fingerprint key_file compartment_id
         db_user db_password db_dsn : string,
    environment_reads (trace (run W load_config s)) =
      [ ("OCI_USER_ID", Some user); ("OCI_TENANCY_ID", Some tenancy);
        ("OCI_REGION", Some region); ("OCI_KEY_FINGERPRINT", Some fingerprint);
        ("OCI_PRIVATE_KEY_PATH", Some key_file); ("COMPARTMENT_ID", Some compartment_id);
        ("DB_USER", Some db_user); ("DB_PASSWORD", Some db_password);
        ("DB_DSN", Some db_dsn) ] /\
    oci_config =
      [ ("user", Some user); ("tenancy", Some tenancy); ("region", Some region);
        ("fingerprint", Some fingerprint); ("key_file", Some key_file);
        ("compartment_id", Some compartment_id) ] /\
    db_config =
      [ ("DB_USER", Some db_user); ("DB_PASSWORD", Some db_password);
        ("DB_DSN", Some db_dsn) ].
Proof.
  destruct (handle W load_dotenv s) as [[b|e] s1] eqn:E.
  2:{ rewrite (run_load_config_dotenv_fails W s s1 e E); discriminate. }
  rewrite (run_load_config W s s1 b E); unfold load_config_trace; cbn [outcome_of trace].
  destruct (first_missing (environ W s1)) as [key|] eqn:M; [discriminate|].
  intro R; injection R as <- <-.
  apply first_missing_none in M. unfold required_variables in M; simpl in M.
  repeat match goal with
         | H : Forall _ (_ :: _) |- _ =>
             let T := fresh "T" in let rest := fresh "rest" in
             inversion_clear H as [|? ? T rest];
             apply truthy_some in T; destruct T as [? T]
         end.
  do 9 eexists.
  unfold config_of, required_variables; simpl.
  repeat match goal with H : environ W s1 _ = Some _ |- _ => rewrite H; clear H end.
  repeat split; reflexivity.
Qed.

(** In the first run of the concrete world the loader returns the nine
    values of the [.env] file. *)
Lemma load_config_result_witness :
  outcome_of (run Reference.world load_config Reference.fresh)
  = Returned (config_of (fun var => dict_get Reference.env_file var) oci_variables,
              config_of (fun var => dict_get Reference.env_file var) db_variables)
  /\ exists user tenancy region fingerprint key_file compartment_id
            db_user db_password db_dsn : string,
       environment_reads (trace (run Reference.world load_config Reference.fresh)) =
         [ ("OCI_USER_ID", Some user); ("OCI_TENANCY_ID", Some tenancy);
           ("OCI_REGION", Some region); ("OCI_KEY_FINGERPRINT", Some fingerprint);
           ("OCI_PRIVATE_KEY_PATH", Some key_file); ("COMPARTMENT_ID", Some compartment_id);
           ("DB_USER", Some db_user); ("DB_PASSWORD", Some db_password);
           ("DB_DSN", Some db_dsn) ] /\
       config_of (fun var => dict_get Reference.env_file var) oci_variables =
         [ ("user", Some user); ("tenancy", Some tenancy); ("region", Some region);
           ("fingerprint", Some fingerprint); ("key_file", Some key_file);
           ("compartment_id", Some compartment_id) ] /\
       config_of (fun var => dict_get Reference.env_file var) db_variables =
         [ ("DB_USER", Some db_user); ("DB_PASSWORD", Some db_password);
           ("DB_DSN", Some db_dsn) ].
Proof.
  split.
  - vm_compute; reflexivity.
  - apply (load_config_result Reference.world Reference.fresh). vm_compute; reflexivity.
Defined.



End config_loader_facts.

(** ** Postconditions *)

Section PostconditionLaws.
Variable W : World.

Lemma wp_run {A} (p : prog A) (s : state W) Q :
  wp W p s Q <->
  Q (trace (run W p s)) (outcome_of (run W p s)) (final (run W p s)).
Proof.
  revert s Q; induction p as [a|e|h|line k IH|u k IH|key k IH|c k IH]; intros s Q; simpl;
    try reflexivity; try (rewrite IH; reflexivity).
  destruct (handle W c s) as [r s'] eqn:E; simpl. split.
  - intro H. apply (IH r s' (fun tr => Q (EvCall c r :: tr))). apply H; reflexivity.
  - intros H r0 s0 E0. injection E0 as <- <-.
    apply (IH r s' (fun tr => Q (EvCall c r :: tr))). exact H.
Qed.

(** A statement whose run is known, followed by the rest of a [try] body. *)
Lemma wp_try_bind {A B} (p : prog A) (f : A -> prog B) (h : exn -> prog B)
    (s : state W) Q :
  match outcome_of (run W p s) with
  | Returned a =>
      wp W (try_except (f a) h) (final (run W p s))
         (fun tr => Q (trace (run W p s) ++ tr)%list)
  | Raised e =>
      wp W (h e) (final (run W p s)) (fun tr => Q (trace (run W p s) ++ tr)%list)
  | Halted x => Q (trace (run W p s)) (Halted x) (final (run W p s))
  end ->
  wp W (try_except (bind p f) h) s Q.
Proof.
  intro H. apply wp_run. rewrite run_try_except, run_bind.
  unfold and_then, or_else.
  destruct (outcome_of (run W p s)) as [a|e|x]; simpl.
  - apply wp_run in H. rewrite run_try_except in H. unfold or_else in H.
    destruct (run W (f a) (final (run W p s))) as [tr2 o2 s2]; destruct o2; simpl in *;
      try rewrite <- app_assoc; exact H.
  - apply wp_run in H. exact H.
  - exact H.
Qed.

(** The same outside a [try]. *)
Lemma wp_bind {A B} (p : prog A) (f : A -> prog B) (s : state W) Q :
  match outcome_of (run W p s) with
  | Returned a =>
      wp W (f a) (final (run W p s)) (fun tr => Q (trace (run W p s) ++ tr)%list)
  | Raised e => Q (trace (run W p s)) (Raised e) (final (run W p s))
  | Halted x => Q (trace (run W p s)) (Halted x) (final (run W p s))
  end ->
  wp W (bind p f) s Q.
Proof.
  intro H. apply wp_run. rewrite run_bind. unfold and_then.
  destruct (outcome_of (run W p s)) as [a|e|x]; simpl.
  - apply wp_run in H. exact H.
  - exact H.
  - exact H.
Qed.

End PostconditionLaws.

(** ** ingest.py *)

Module ingest_facts.
Import ingest config_vocabulary ingest_vocabulary config_loader_facts.


Lemma run_list_documents (W : World) (s : state W) (documents : list Document) (i : nat) :
  run W (list_documents i documents) s
  = mk_run (map EvPrint (document_lines i documents)) (Returned tt) s.
Proof.
  revert i; induction documents as [|doc rest IH]; intro i.
  - reflexivity.
  - simpl. rewrite IH. reflexivity.
Qed.

Opaque config_loader.load_config.
Arguments ingest.list_documents : simpl never.
Arguments ingest.total_length : simpl never.
Arguments Nat.div : simpl never.
Arguments str_int : simpl never.
Arguments String.length : simpl never.
Arguments repeat_str : simpl never.

Lemma stages_prints (lines : list string) (tr : list event) :
  stages (map EvPrint lines ++ tr)%list = stages tr.
Proof. induction lines; simpl; auto. Qed.

(** One step of a run: a call is answered, by a value or by an exception. *)
Ltac answer_call :=
  lazymatch goal with
  | |- forall r s', handle _ ?c _ = _ -> _ =>
      let v := fresh "v" in
      let e := fresh "e" in
      let s' := fresh "s" in
      let E := fresh "E" in
      intros [v|e] s' E;
      [ lazymatch c with
        | loader_load _ => destruct v as [|? ?]
        | split_documents _ _ => destruct v as [|? ?]
        | cursor_fetchone _ => destruct v as [[|? ?]|]
        | _ => idtac
        end
      | ]
  end.

Ltac database_error_or_not :=
  try unfold except_DatabaseError;
  lazymatch goal with
  | |- wp _ ?p _ _ =>
      lazymatch p with
      | context [if is_DatabaseError ?e then _ else _] =>
          destruct (is_DatabaseError e) eqn:?
      end
  end.

Ltac known_statement :=
  lazymatch goal with
  | |- wp _ (try_except (bind (list_documents _ _) _) _) _ _ =>
      apply wp_try_bind; rewrite run_list_documents; cbn [outcome_of trace final]
  | |- wp _ (bind (list_documents _ _) _) _ _ =>
      apply wp_bind; rewrite run_list_documents; cbn [outcome_of trace final]
  end.

Ltac explore :=
  repeat (simpl; first [answer_call | database_error_or_not | known_statement]); simpl.

(** Enter [run_ingestion] and run [load_config]. *)
Ltac enter_ingestion W s :=
  unfold run_ingestion, ingestion_steps; simpl;
  apply wp_try_bind;
  let b := fresh "b" in
  let e := fresh "e" in
  let s1 := fresh "s" in
  let E := fresh "E" in
  let M := fresh "M" in
  destruct (handle W load_dotenv s) as [[b|e] s1] eqn:E;
  [ rewrite (run_load_config W s s1 b E); unfold load_config_trace;
    cbn [outcome_of trace final];
    destruct (first_missing (environ W s1)) eqn:M
  | rewrite (run_load_config_dotenv_fails W s s1 e E) ].

(** C1. On the success path, [run_ingestion] performs the five stages load,
    split, embed, store, verify, once each and in that order: it loads the
    documents from [./data], splits those documents into chunks, builds the
    embedding model [cohere.embed-english-v3.0], stores those chunks through
    a vector store on the table [rag_documents] that embeds with that model,
    and then counts the records of [rag_documents]. *)
Theorem pipeline_order (W : World) (s : state W) :
  outcome_of (run W run_ingestion s) = Returned tt ->
  exists documents chunks model connection,
    stages (trace (run W run_ingestion s)) =
      [ StLoad "./data" documents;
        StSplit documents chunks;
        StEmbed model;
        StStore (mk_vs connection model "rag_documents" "COSINE") chunks;
        StVerify "SELECT COUNT(*) FROM rag_documents" ] /\
    emb_model_id model = "cohere.embed-english-v3.0".
Proof.
  apply (proj1 (wp_run W run_ingestion s (fun tr o _ =>
    o = Returned tt ->
    exists documents chunks model connection,
      stages tr =
        [ StLoad "./data" documents;
          StSplit documents chunks;
          StEmbed model;
          StStore (mk_vs connection model "rag_documents" "COSINE") chunks;
          StVerify "SELECT COUNT(*) FROM rag_documents" ] /\
      emb_model_id model = "cohere.embed-english-v3.0"))).
  enter_ingestion W s.
  all: explore.
  all: try (intro; discriminate).
  all: intros _; rewrite stages_prints; simpl; do 4 eexists; split; reflexivity.
Qed.

(** The first run of the concrete world goes through the five stages. *)
Lemma pipeline_order_witness :
  outcome_of (run Reference.world run_ingestion Reference.fresh) = Returned tt
  /\ exists documents chunks model connection,
       stages (trace (run Reference.world run_ingestion Reference.fresh)) =
         [ StLoad "./data" documents;
           StSplit documents chunks;
           StEmbed model;
           StStore (mk_vs connection model "rag_documents" "COSINE") chunks;
           StVerify "SELECT COUNT(*) FROM rag_documents" ] /\
       emb_model_id model = "cohere.embed-english-v3.0".
Proof.
  split.
  - vm_compute; reflexivity.
  - apply (pipeline_order Reference.world Reference.fresh). vm_compute; reflexivity.
Defined.

(** [run_ingestion] is its banner followed by the guarded steps. *)
Lemma run_run_ingestion (W : World) (s : state W) :
  run W run_ingestion s
  = after (EvPrint (nl ++ rule))
      (after (EvPrint "🚀 STARTING DATA INGESTION PIPELINE")
         (after (EvPrint (rule ++ nl))
            (or_else (run W ingestion_steps s)
                     (fun e s' => run W (report_failure e) s')))).
Proof. rewrite <- run_try_except. reflexivity. Qed.

Lemma run_report_failure (W : World) (s : state W) (e : exn) :
  run W (report_failure e) s
  = mk_run (map EvPrint (failure_lines e)) (Halted (SystemExit 1)) s.
Proof. reflexivity. Qed.






(** [run_ingestion] calls no library before [load_config], and none at all
    unless [load_config] returns. *)
Lemma ingestion_reads_config_first (W : World) (s : state W) :
  exists before rest,
    trace (run W run_ingestion s)
    = (before ++ trace (run W config_loader.load_config s) ++ rest)%list /\
    calls before = [] /\
    calls (trace (run W config_loader.load_config s)) = [load_dotenv] /\
    ((forall config, outcome_of (run W config_loader.load_config s) <> Returned config) ->
     calls rest = []).
Proof.
  pose proof (calls_load_config W s) as C.
  rewrite run_run_ingestion. unfold ingestion_steps.
  rewrite run_bind; cbn [print run]. unfold and_then at 1.
  cbn [after outcome_of trace final app]. rewrite run_bind.
  destruct (run W config_loader.load_config s) as [tr o s1]; simpl in *.
  exists (banner ++ [EvPrint "📋 Step 1: Loading configuration from .env file..."])%list.
  destruct o as [config|e|h].
  - unfold and_then, or_else; simpl.
    match goal with
    | |- context [run W ?p s1] => destruct (run W p s1) as [tr2 o2 s2]
    end.
    destruct o2; simpl; rewrite <- ?app_assoc; eexists; (split; [reflexivity|]);
      (split; [reflexivity|]); (split; [assumption|]);
      intro H; exfalso; apply (H config); reflexivity.
  - unfold and_then, or_else; simpl.
    exists (map EvPrint (failure_lines e)).
    split; [reflexivity|]. split; [reflexivity|]. split; [assumption|].
    intros _. reflexivity.
  - unfold and_then, or_else; simpl.
    exists []. rewrite app_nil_r.
    split; [reflexivity|]. split; [reflexivity|]. split; [assumption|].
    intros _. reflexivity.
Qed.

(** C9. When the configuration loads and the document loader then returns
    no document, [run_ingestion] prints the warning and exits with status 1
    having called nothing but [load_dotenv()] and the loader: no embedding
    model is built, no connection is opened and nothing is written, so the
    world is left as the loader left it. *)
Theorem empty_data_folder (W : World) (s s2 : state W) (config : dict pystr * dict pystr) :
  outcome_of (run W config_loader.load_config s) = Returned config ->
  handle W (loader_load (mk_loader "./data" "**/*.txt" "TextLoader"))
         (final (run W config_loader.load_config s))
  = (Ok [], s2) ->
  let r := run W run_ingestion s in
  outcome_of r = Halted (SystemExit 1) /\
  In "⚠️  WARNING: No documents found in ./data folder!" (printed (trace r)) /\
  calls (trace r) = [load_dotenv; loader_load (mk_loader "./data" "**/*.txt" "TextLoader")] /\
  final r = s2.
Proof.
  intros Hconfig Hload r; subst r.
  apply (proj1 (wp_run W run_ingestion s (fun tr o sf =>
    o = Halted (SystemExit 1) /\
    In "⚠️  WARNING: No documents found in ./data folder!" (printed tr) /\
    calls tr = [load_dotenv; loader_load (mk_loader "./data" "**/*.txt" "TextLoader")] /\
    sf = s2))).
  enter_ingestion W s.
  - rewrite (run_load_config W s _ _ E) in Hconfig; cbn [outcome_of] in Hconfig.
    rewrite M in Hconfig; discriminate.
  - rewrite (run_load_config W s _ _ E) in Hload; cbn [final] in Hload.
    simpl. intros r s' E0. rewrite Hload in E0. injection E0 as <- <-.
    simpl. repeat split; auto 20.
  - rewrite (run_load_config_dotenv_fails W s _ _ E) in Hconfig; discriminate.
Qed.

(** With nothing under [./data], the table of an earlier run is left as it
    was. *)
Lemma empty_data_folder_witness :
  let r := run Reference.world run_ingestion Reference.no_data in
  outcome_of (run Reference.world config_loader.load_config Reference.no_data)
  = Returned (config_of (fun var => dict_get Reference.env_file var) oci_variables,
              config_of (fun var => dict_get Reference.env_file var) db_variables)
  /\ (outcome_of r = Halted (SystemExit 1) /\
      In "⚠️  WARNING: No documents found in ./data folder!" (printed (trace r)) /\
      calls (trace r) = [load_dotenv; loader_load (mk_loader "./data" "**/*.txt" "TextLoader")] /\
      final r = final (run Reference.world config_loader.load_config Reference.no_data))
  /\ Reference.tables (final r) = Reference.tables Reference.no_data.
Proof.
  split; [|split].
  - vm_compute; reflexivity.
  - apply (empty_data_folder Reference.world Reference.no_data
             (final (run Reference.world config_loader.load_config Reference.no_data))
             (config_of (fun var => dict_get Reference.env_file var) oci_variables,
              config_of (fun var => dict_get Reference.env_file var) db_variables)).
    + vm_compute; reflexivity.
    + vm_compute; reflexivity.
  - vm_compute; reflexivity.
Defined.


(** Without the lock the same run replaces the old row. *)
Lemma rerun_replaces_rows :
  let r := run Reference.world run_ingestion Reference.populated in
  outcome_of r = Returned tt /\
  dict_get (Reference.tables (final r)) "rag_documents"
  = Some [Reference.compute_txt; Reference.storage_txt].
Proof. vm_compute. split; reflexivity. Qed.

End ingest_facts.

(** ** main_app.py *)

Module main_app_facts.
Import main_app config_vocabulary app_vocabulary config_loader_facts.

Lemma run_show_sources (W : World) (s : state W) (source_docs : list Document) (i : nat) :
  run W (show_sources i source_docs) s
  = mk_run (map EvRender (source_elements i source_docs)) (Returned tt) s.
Proof.
  revert i; induction source_docs as [|doc rest IH]; intro i.
  - reflexivity.
  - simpl. rewrite IH. reflexivity.
Qed.

Lemma requests_renders (us : list ui) (tr : list event) :
  requests (map EvRender us ++ tr)%list = requests tr.
Proof. induction us; simpl; auto. Qed.

Lemma requests_app (t1 t2 : list event) :
  requests (t1 ++ t2)%list = (requests t1 ++ requests t2)%list.
Proof.
  induction t1 as [|ev t1 IH]; simpl; [reflexivity|].
  destruct ev as [| | |c r]; simpl; try assumption.
  destruct c; simpl; rewrite ?IH; reflexivity.
Qed.

Arguments main_app.show_sources : simpl never.

Ltac answer_call :=
  lazymatch goal with
  | |- forall r s', handle _ _ _ = _ -> _ =>
      let v := fresh "v" in
      let e := fresh "e" in
      let s' := fresh "s" in
      let E := fresh "E" in
      intros [v|e] s' E
  end.

Ltac stuck_match :=
  try unfold except_DatabaseError; try unfold main_app.first_column;
  lazymatch goal with
  | |- wp _ ?p _ _ =>
      match p with
      | context [match ?x with _ => _ end] => destruct x eqn:?
      | context [if ?x then _ else _] => destruct x eqn:?
      end
  end.

Ltac known_statement :=
  lazymatch goal with
  | |- wp _ (try_except (bind (show_sources _ _) _) _) _ _ =>
      apply wp_try_bind; rewrite run_show_sources; cbn [outcome_of trace final]
  | |- wp _ (bind (show_sources _ _) _) _ _ =>
      apply wp_bind; rewrite run_show_sources; cbn [outcome_of trace final]
  end.

Ltac explore :=
  repeat (simpl; first [answer_call | known_statement | stuck_match]); simpl.

(** Whatever the chain answers, processing a question sends it exactly one
    request. *)
Lemma answer_steps_one_request (W : World) (s : state W) (qa : RetrievalQA) (q : string) :
  calls (trace (run W (answer_steps qa q) s)) = [qa_invoke qa q].
Proof.
  apply (proj1 (wp_run W (answer_steps qa q) s (fun tr _ _ => calls tr = [qa_invoke qa q]))).
  unfold answer_steps. explore.
  all: rewrite ?calls_renders; reflexivity.
Qed.

(** The sidebar always returns, and calls nothing but its status query. *)
Lemma sidebar_returns (W : World) (s : state W) (vs : OracleVS) :
  outcome_of (run W (sidebar vs) s) = Returned tt /\
  Forall (fun c => is_status_query c = true) (calls (trace (run W (sidebar vs) s))) /\
  requests (trace (run W (sidebar vs) s)) = [].
Proof.
  apply (proj1 (wp_run W (sidebar vs) s (fun tr o _ =>
    o = Returned tt /\ Forall (fun c => is_status_query c = true) (calls tr) /\
    requests tr = []))).
  unfold sidebar. explore.
  all: repeat split; repeat constructor.
Qed.

Lemma nonempty_question (q : string) :
  q <> EmptyString -> String.eqb q EmptyString = false.
Proof.
  intro H. destruct (String.eqb q EmptyString) eqn:E; [|reflexivity].
  apply String.eqb_eq in E. contradiction.
Qed.

(** The block of a submitted question is the spinner and the guarded steps. *)
Lemma run_question_block_asked (W : World) (s : state W) (qa : RetrievalQA) (q : string) :
  q <> EmptyString ->
  run W (question_block qa q true) s
  = after thinking
      (or_else (run W (answer_steps qa q) s) (fun e s' => run W (show_failure e) s')).
Proof.
  intro H. unfold question_block. rewrite (nonempty_question q H).
  cbn [andb negb]. rewrite <- run_try_except. reflexivity.
Qed.

(** The question block always returns; it sends one request when a question
    was submitted and none otherwise. *)
Lemma question_block_returns (W : World) (s : state W) (qa : RetrievalQA)
    (q : string) (b : bool) :
  outcome_of (run W (question_block qa q b) s) = Returned tt /\
  calls (trace (run W (question_block qa q b) s))
  = (if b && negb (String.eqb q EmptyString) then [qa_invoke qa q] else []).
Proof.
  apply (proj1 (wp_run W (question_block qa q b) s (fun tr o _ =>
    o = Returned tt /\
    calls tr = (if b && negb (String.eqb q EmptyString) then [qa_invoke qa q] else [])))).
  unfold question_block, answer_steps.
  destruct (b && negb (String.eqb q EmptyString)) eqn:A.
  - explore. all: rewrite ?calls_renders; split; reflexivity.
  - destruct (b && String.eqb q EmptyString); simpl; split; reflexivity.
Qed.

Lemma requests_of_calls (tr : list event) :
  requests tr
  = flat_map (fun c => match c with qa_invoke qa q => [(qa, q)] | _ => [] end) (calls tr).
Proof.
  induction tr as [|ev tr IH]; simpl; [reflexivity|].
  destruct ev as [| | |c r]; simpl; try assumption.
  destruct c; simpl; rewrite IH; reflexivity.
Qed.

Opaque main_app.question_block main_app.sidebar main_app.answer_steps.

(** An execution of the script whose services are obtained goes on to the
    widgets, the question block, the sidebar and the footer, and returns
    the store. *)
Lemma run_script (W : World) (s s0 : state W) (cache cache' : option services)
    (svc : services) (tr0 : list event) (q : string) (b : bool) :
  run W (startup cache) s = mk_run tr0 (Returned (svc, cache')) s0 ->
  let block := run W (question_block (fst svc) q b) s0 in
  let side := run W (sidebar (snd svc)) (final block) in
  run W (script cache q b) s
  = mk_run (page_head ++ tr0 ++ widgets ++ trace block ++ trace side ++ page_foot)%list
           (Returned cache') (final side).
Proof.
  intros H block side. unfold script.
  rewrite !run_render_then, run_bind.
  rewrite (and_then_returned _ _ (svc, cache')) by (rewrite H; reflexivity).
  rewrite H; cbn [trace final]. destruct svc as [qa vs]. cbn [fst snd] in *.
  rewrite !run_render_then, run_bind.
  rewrite (and_then_returned _ _ tt) by apply (question_block_returns W s0 qa q b).
  fold block. rewrite run_bind.
  rewrite (and_then_returned _ _ tt) by apply (sidebar_returns W (final block) vs).
  fold side. rewrite !run_render_then.
  reflexivity.
Qed.

(** With a filled store, obtaining the services calls nothing. *)
Lemma run_startup_warm (W : World) (s : state W) (svc : services) :
  run W (startup (Some svc)) s
  = mk_run [EvRender (st_spinner "🔧 Initializing RAG system...")]
           (Returned (svc, Some svc)) s.
Proof. reflexivity. Qed.

(** C4. When processing a submitted question raises an exception, the
    script catches it, shows and prints its message with the
    troubleshooting tips, and goes on to the sidebar and the footer: the
    execution returns with the store it had, so later requests are served.
    The question was sent to the chain once and is not sent again, and the
    only calls after the exception are those of the sidebar's status
    query, which reads. *)
Theorem question_failure_is_displayed (W : World) (s s0 s1 : state W)
    (cache cache' : option services) (svc : services) (q : string)
    (tr0 tr : list event) (e : exn) :
  q <> EmptyString ->
  run W (startup cache) s = mk_run tr0 (Returned (svc, cache')) s0 ->
  run W (answer_steps (fst svc) q) s0 = mk_run tr (Raised e) s1 ->
  let side := run W (sidebar (snd svc)) s1 in
  run W (script cache q true) s
  = mk_run (page_head ++ tr0 ++ widgets ++ thinking :: tr ++ failure_display e
            ++ trace side ++ page_foot)%list
           (Returned cache') (final side) /\
  calls tr = [qa_invoke (fst svc) q] /\
  calls (failure_display e) = [] /\
  Forall (fun c => is_status_query c = true) (calls (trace side)).
Proof.
  intros Hq H0 H1 side. split; [|split; [|split]].
  - rewrite (run_script W s s0 cache cache' svc tr0 q true H0).
    rewrite (run_question_block_asked W s0 (fst svc) q Hq), H1.
    unfold or_else; cbn [outcome_of trace final after].
    change (run W (show_failure e) s1)
      with (mk_run (failure_display e) (Returned tt) s1).
    cbn [outcome_of trace final app]. fold side.
    rewrite <- ?app_assoc. reflexivity.
  - pose proof (answer_steps_one_request W s0 (fst svc) q) as C.
    rewrite H1 in C. exact C.
  - reflexivity.
  - apply (sidebar_returns W s1 (snd svc)).
Qed.

(** With "What is OCI Compute?" submitted while the language model refuses
    requests, the failure is shown and the execution returns. *)
Lemma question_failure_is_displayed_witness :
  let q := "What is OCI Compute?" in
  let e := mk_exn (OtherError "ServiceError") "429 Too Many Requests" in
  exists svc,
    ReferenceApp.store = Some svc /\
    let steps := run Reference.world (answer_steps (fst svc) q) Reference.llm_down in
    let side := run Reference.world (sidebar (snd svc)) Reference.llm_down in
    q <> EmptyString /\
    steps = mk_run (trace steps) (Raised e) Reference.llm_down /\
    (run Reference.world (script (Some svc) q true) Reference.llm_down
     = mk_run (page_head ++ [EvRender (st_spinner "🔧 Initializing RAG system...")]
               ++ widgets ++ thinking :: trace steps ++ failure_display e
               ++ trace side ++ page_foot)%list
              (Returned (Some svc)) (final side) /\
     calls (trace steps) = [qa_invoke (fst svc) q] /\
     calls (failure_display e) = [] /\
     Forall (fun c => is_status_query c = true) (calls (trace side))).
Proof.
  intros q e. eexists. split; [reflexivity|].
  split; [discriminate|]. split; [vm_compute; reflexivity|].
  apply (question_failure_is_displayed Reference.world Reference.llm_down
           Reference.llm_down Reference.llm_down).
  - discriminate.
  - reflexivity.
  - vm_compute; reflexivity.
Defined.

Lemma status_query_not_initialization (c : call) :
  is_status_query c = true -> is_initialization c = false.
Proof. destruct c; simpl; intro H; try reflexivity; discriminate. Qed.

(** An execution that starts with a filled store returns it, builds
    nothing, and sends its request, if any, to the stored chain. *)
Lemma warm_execution (W : World) (s : state W) (svc : services) (q : string) (b : bool) :
  let r := run W (script (Some svc) q b) s in
  outcome_of r = Returned (Some svc) /\
  Forall (fun c => is_initialization c = false) (calls (trace r)) /\
  requests (trace r)
  = (if b && negb (String.eqb q EmptyString) then [(fst svc, q)] else []).
Proof.
  intro r; subst r.
  rewrite (run_script W s s (Some svc) (Some svc) svc _ q b (run_startup_warm W s svc)).
  cbn [outcome_of trace].
  destruct (question_block_returns W s (fst svc) q b) as [_ Cb].
  destruct (sidebar_returns W (final (run W (question_block (fst svc) q b) s)) (snd svc))
    as [_ [Cs Rs]].
  split; [reflexivity|]. split.
  - rewrite !calls_app. rewrite Cb. simpl.
    apply Forall_app. split.
    + destruct (b && negb (String.eqb q EmptyString)); repeat constructor.
    + rewrite app_nil_r. revert Cs. apply Forall_impl.
      exact status_query_not_initialization.
  - rewrite !requests_app. rewrite Rs.
    rewrite (requests_of_calls (trace (run W (question_block (fst svc) q b) s))), Cb.
    simpl. destruct (b && negb (String.eqb q EmptyString)); reflexivity.
Qed.




Opaque config_loader.load_config.

(** [initialize_services] calls no library before [load_config], and none
    at all unless [load_config] returns. *)
Lemma services_read_config_first (W : World) (s : state W) :
  exists before rest,
    trace (run W initialize_services s)
    = (before ++ trace (run W config_loader.load_config s) ++ rest)%list /\
    calls before = [] /\
    calls (trace (run W config_loader.load_config s)) = [load_dotenv] /\
    ((forall config, outcome_of (run W config_loader.load_config s) <> Returned config) ->
     calls rest = []).
Proof.
  pose proof (calls_load_config W s) as C.
  unfold initialize_services. rewrite run_print_then, run_try_except.
  unfold initialization_steps. rewrite run_bind.
  destruct (run W config_loader.load_config s) as [tr o s1]; cbn [trace outcome_of] in *.
  exists [EvPrint "🔧 Initializing services (this happens once)..."].
  destruct o as [config|e|h].
  - unfold and_then, or_else; cbn [outcome_of trace final after].
    match goal with
    | |- context [run W ?p s1] => destruct (run W p s1) as [tr2 o2 s2]
    end.
    destruct o2; cbn [outcome_of trace final app]; rewrite <- ?app_assoc; eexists;
      (split; [reflexivity|]); (split; [reflexivity|]); (split; [assumption|]);
      intro H; exfalso; apply (H config); reflexivity.
  - unfold and_then, or_else; cbn [outcome_of trace final after app].
    eexists. split; [reflexivity|]. split; [reflexivity|]. split; [assumption|].
    intros _. reflexivity.
  - unfold and_then, or_else; cbn [outcome_of trace final after app].
    exists []. rewrite app_nil_r.
    split; [reflexivity|]. split; [reflexivity|]. split; [assumption|].
    intros _. reflexivity.
Qed.

(** With an empty store, obtaining the services is the spinner followed by
    [initialize_services]; it returns when that function returns, with its
    result stored. *)
Lemma run_startup_cold (W : World) (s : state W) :
  (exists more,
     trace (run W (startup None) s)
     = (EvRender (st_spinner "🔧 Initializing RAG system...")
        :: trace (run W initialize_services s) ++ more)%list) /\
  (forall svc cache',
     outcome_of (run W (startup None) s) = Returned (svc, cache') ->
     cache' = Some svc /\ outcome_of (run W initialize_services s) = Returned svc).
Proof.
  unfold startup. rewrite run_try_except, run_render_then.
  cbn [cache_resource]. rewrite run_bind.
  destruct (run W initialize_services s) as [tr o s1].
  unfold and_then, or_else; cbn [outcome_of trace final after run].
  destruct o as [v|e|h]; cbn [outcome_of trace final app after run bind render]; split.
  - exists []. reflexivity.
  - intros svc cache' H. injection H as <- <-. split; reflexivity.
  - eexists. reflexivity.
  - intros svc cache' H. discriminate.
  - exists []. rewrite app_nil_r. reflexivity.
  - intros svc cache' H. discriminate.
Qed.

(** C6, amended. The services are cached: an execution that starts with a
    filled store returns the same store, makes none of the calls that
    build the services, and sends its request to the stored chain; an
    execution that starts with an empty store begins the initialization
    (its first call is [load_dotenv()]), and when it returns, the store
    holds what [initialize_services] returned. *)
Theorem services_are_cached (W : World) (s : state W) (q : string) (b : bool) :
  (forall svc,
     let r := run W (script (Some svc) q b) s in
     outcome_of r = Returned (Some svc) /\
     Forall (fun c => is_initialization c = false) (calls (trace r)) /\
     Forall (fun request => fst request = fst svc) (requests (trace r))) /\
  (exists rest, calls (trace (run W (script None q b) s)) = load_dotenv :: rest) /\
  (forall cache',
     outcome_of (run W (script None q b) s) = Returned cache' ->
     exists svc,
       cache' = Some svc /\ outcome_of (run W initialize_services s) = Returned svc).
Proof.
  split; [|split].
  - intros svc r. destruct (warm_execution W s svc q b) as [R [I Q]].
    split; [exact R|]. split; [exact I|]. subst r. rewrite Q.
    destruct (b && negb (String.eqb q EmptyString)); repeat constructor.
  - unfold script. rewrite !run_render_then, run_bind.
    match goal with
    | |- context [and_then ?r ?k] => destruct (and_then_extends r k) as [more1 T1]
    end.
    cbn [trace after]. rewrite T1.
    destruct (run_startup_cold W s) as [[more2 T2] _]. rewrite T2.
    destruct (services_read_config_first W s) as [before [rest [T3 [B [L _]]]]].
    rewrite T3. cbn [calls app]. rewrite !calls_app, B, L. cbn [app].
    eexists; reflexivity.
  - intros cache' H. pose proof H as H'. unfold script in H'.
    rewrite !run_render_then, run_bind in H'. cbn [outcome_of after] in H'.
    apply and_then_returns in H'. destruct H' as [[svc c] [H0 _]].
    destruct (run_startup_cold W s) as [_ K].
    destruct (K svc c H0) as [-> Hinit].
    exists svc. split; [|exact Hinit].
    destruct (run W (startup None) s) as [tr0 o0 s0] eqn:R0. cbn [outcome_of] in H0.
    subst o0.
    rewrite (run_script W s s0 None (Some svc) svc tr0 q b R0) in H.
    cbn [outcome_of] in H. injection H as <-. reflexivity.
Qed.

(** A first execution in the concrete world fills the store with what
    [initialize_services] returned. *)
Lemma services_are_cached_witness :
  outcome_of (run Reference.world (script None EmptyString false) Reference.serving)
  = Returned ReferenceApp.store
  /\ exists svc,
       ReferenceApp.store = Some svc /\
       outcome_of (run Reference.world initialize_services Reference.serving) = Returned svc.
Proof.
  split.
  - vm_compute; reflexivity.
  - apply (proj2 (proj2 (services_are_cached Reference.world Reference.serving
                           EmptyString false))).
    vm_compute; reflexivity.
Defined.

(** C6 as stated fails: in the concrete world a first request builds the
    services, and the second request builds nothing: it makes no
    initialization call and sends its question to the chain the first
    request built, over the connection the first request opened. *)
Lemma services_reused_counterexample :
  let first := run Reference.world (script None "What is OCI Compute?" true)
                   Reference.serving in
  let second := run Reference.world
                    (script (store_after None (outcome_of first))
                            "How does OCI ensure security?" true)
                    (final first) in
  outcome_of first = Returned ReferenceApp.store /\
  existsb is_initialization (calls (trace first)) = true /\
  existsb is_initialization (calls (trace second)) = false /\
  map fst (requests (trace second)) = map fst (requests (trace first)) /\
  map snd (requests (trace second)) = ["How does OCI ensure security?"] /\
  outcome_of second = Returned ReferenceApp.store.
Proof. vm_compute. repeat split; reflexivity. Qed.

End main_app_facts.

(** ** Both scripts *)

(** C7. In [run_ingestion] and in [initialize_services] alike, nothing is
    called before [load_config]; [load_config] itself calls only
    [load_dotenv()]; and unless [load_config] returns, nothing is called
    after it either.  So the embedding model, the language model and the
    database are contacted only after the configuration has been read and
    validated. *)
Theorem configuration_is_read_first (W : World) (s : state W) :
  let config := run W config_loader.load_config s in
  (exists before rest,
     trace (run W ingest.run_ingestion s) = (before ++ trace config ++ rest)%list /\
     calls before = [] /\
     calls (trace config) = [load_dotenv] /\
     ((forall result, outcome_of config <> Returned result) -> calls rest = [])) /\
  (exists before rest,
     trace (run W main_app.initialize_services s) = (before ++ trace config ++ rest)%list /\
     calls before = [] /\
     calls (trace config) = [load_dotenv] /\
     ((forall result, outcome_of config <> Returned result) -> calls rest = [])).
Proof.
  intro config. split.
  - apply ingest_facts.ingestion_reads_config_first.
  - apply main_app_facts.services_read_config_first.
Qed.

(** ** Further properties of config_loader.py *)

Module config_loader_more.
Import config_loader config_vocabulary config_loader_facts wiring.

(** X1. Once [load_dotenv()] has returned, [load_config] reads all nine
    variables before it validates any of them, so they are all read even
    when the first one is missing; it calls nothing else and leaves the
    world as [load_dotenv()] left it; and the three lines of the success
    message are printed only when it returns. *)
Theorem load_config_reads_before_validating (W : World) (s s1 : state W) (b : bool) :
  handle W load_dotenv s = (Ok b, s1) ->
  let r := run W load_config s in
  environment_reads (trace r)
  = map (fun var => (var, environ W s1 var))
        [ "OCI_USER_ID"; "OCI_TENANCY_ID"; "OCI_REGION"; "OCI_KEY_FINGERPRINT";
          "OCI_PRIVATE_KEY_PATH"; "COMPARTMENT_ID"; "DB_USER"; "DB_PASSWORD"; "DB_DSN" ] /\
  calls (trace r) = [load_dotenv] /\
  final r = s1 /\
  printed (trace r)
  = "Loading configuration from .env file..."
    :: match outcome_of r with
       | Returned _ =>
           [ "✓ Configuration loaded successfully!";
             "  - OCI Region: " ++ str (environ W s1 "OCI_REGION");
             "  - DB User: " ++ str (environ W s1 "DB_USER") ]
       | _ => []
       end.
Proof.
  intros E r; subst r. rewrite (run_load_config W s s1 b E).
  unfold load_config_trace; cbn [trace outcome_of final].
  destruct (first_missing (environ W s1)); repeat split; reflexivity.
Qed.

Lemma load_config_reads_before_validating_witness :
  handle Reference.world load_dotenv Reference.incomplete
  = (Ok true, snd (handle Reference.world load_dotenv Reference.incomplete))
  /\ map fst (environment_reads
                (trace (run Reference.world load_config Reference.incomplete)))
     = [ "OCI_USER_ID"; "OCI_TENANCY_ID"; "OCI_REGION"; "OCI_KEY_FINGERPRINT";
         "OCI_PRIVATE_KEY_PATH"; "COMPARTMENT_ID"; "DB_USER"; "DB_PASSWORD"; "DB_DSN" ].
Proof.
  split.
  - vm_compute; reflexivity.
  - rewrite (proj1 (load_config_reads_before_validating Reference.world Reference.incomplete
                      (snd (handle Reference.world load_dotenv Reference.incomplete)) true
                      eq_refl)).
    reflexivity.
Defined.

(** X2. Run as a script, [config_loader.py] never fails: whatever
    [load_dotenv()] or the validation raise, the test block catches it and
    returns, having called nothing but [load_dotenv()].  Its last lines
    are the two key lists when the configuration loaded, and otherwise one
    line with the message of the exception, introduced as a configuration
    error for a [ValueError] and as an unexpected error for any other. *)
Theorem standalone_test_never_fails (W : World) (s : state W) :
  let r := run W config_loader_script.main s in
  outcome_of r = Returned tt /\
  calls (trace r) = [load_dotenv] /\
  match outcome_of (run W load_config s) with
  | Returned _ =>
      lastn 3 (printed (trace r))
      = [ nl ++ "✓ All configurations loaded successfully!";
          nl ++ "OCI Config Keys: ['user', 'tenancy', 'region', 'fingerprint', 'key_file', 'compartment_id']";
          "DB Config Keys: ['DB_USER', 'DB_PASSWORD', 'DB_DSN']" ]
  | Raised e =>
      lastn 1 (printed (trace r))
      = [ nl ++ match exn_cls e with
                | ValueError => "✗ Configuration Error: "
                | _ => "✗ Unexpected Error: "
                end ++ exn_msg e ]
  | Halted _ => False
  end.
Proof.
  intro r; subst r. unfold config_loader_script.main.
  rewrite run_print_then, run_try_except, run_bind.
  destruct (handle W load_dotenv s) as [[b|e] s1] eqn:E.
  - rewrite (run_load_config W s s1 b E). unfold load_config_trace.
    destruct (first_missing (environ W s1)) as [key|].
    + unfold and_then, or_else, config_loader_script.report;
        cbn [outcome_of trace final after].
      rewrite missing_is_ValueError. repeat split; reflexivity.
    + repeat split; reflexivity.
  - rewrite (run_load_config_dotenv_fails W s s1 e E).
    unfold and_then, or_else, config_loader_script.report;
      cbn [outcome_of trace final after].
    destruct (exn_cls e); repeat split; reflexivity.
Qed.

End config_loader_more.

(** ** Further properties of ingest.py *)

Module ingest_more.
Import ingest config_vocabulary ingest_vocabulary config_loader_facts wiring.
Import ingest_facts.

Opaque config_loader.load_config.

Lemma opened_prints (lines : list string) (tr : list event) :
  opened (map EvPrint lines ++ tr)%list = opened tr.
Proof. induction lines; simpl; auto. Qed.

Lemma closed_prints (lines : list string) (tr : list event) :
  closed (map EvPrint lines ++ tr)%list = closed tr.
Proof. induction lines; simpl; auto. Qed.

(** X3. [run_ingestion] never lets an exception reach its caller: in every
    world it either returns or leaves through [sys.exit(1)], so the exit
    status of the script is 0 or 1. *)
Theorem run_ingestion_never_raises (W : World) (s : state W) :
  outcome_of (run W run_ingestion s) = Returned tt \/
  outcome_of (run W run_ingestion s) = Halted (SystemExit 1).
Proof.
  apply (proj1 (wp_run W run_ingestion s (fun _ o _ =>
    o = Returned tt \/ o = Halted (SystemExit 1)))).
  enter_ingestion W s.
  all: explore.
  all: try (left; reflexivity); right; reflexivity.
Qed.

(** X4. The database connection is closed only at the end of the success
    path: a run that returns has opened one connection and closed it, and
    a run that exits with an error has closed none, also when the error
    came after the connection was opened. *)
Theorem connection_closed_only_on_success (W : World) (s : state W) :
  let r := run W run_ingestion s in
  match outcome_of r with
  | Returned _ =>
      exists connection, opened (trace r) = [connection] /\ closed (trace r) = [connection]
  | _ => closed (trace r) = []
  end.
Proof.
  apply (proj1 (wp_run W run_ingestion s (fun tr o _ =>
    match o with
    | Returned _ => exists connection, opened tr = [connection] /\ closed tr = [connection]
    | _ => closed tr = []
    end))).
  enter_ingestion W s.
  all: explore.
  all: rewrite ?opened_prints, ?closed_prints; simpl.
  all: try reflexivity.
  all: eexists; split; reflexivity.
Qed.

(** X5. When a required variable is missing, [run_ingestion] reports the
    error that names its key and exits with status 1, having called
    nothing but [load_dotenv()]: neither the document loader nor any
    service is reached. *)
Theorem missing_configuration_stops_ingestion (W : World) (s s1 : state W)
    (b : bool) (key : string) :
  handle W load_dotenv s = (Ok b, s1) ->
  first_missing (environ W s1) = Some key ->
  let r := run W run_ingestion s in
  outcome_of r = Halted (SystemExit 1) /\
  calls (trace r) = [load_dotenv] /\
  In (nl ++ "Error details: " ++ exn_msg (missing key)) (printed (trace r)) /\
  final r = s1.
Proof.
  intros E M r; subst r.
  rewrite run_run_ingestion. unfold ingestion_steps.
  rewrite run_print_then, run_bind, (run_load_config W s s1 b E), M.
  unfold and_then, or_else, load_config_trace; cbn [outcome_of trace final after].
  rewrite M, run_report_failure. cbn.
  repeat split; auto 30.
Qed.

Lemma missing_configuration_stops_ingestion_witness :
  let s1 := snd (handle Reference.world load_dotenv Reference.incomplete) in
  let r := run Reference.world run_ingestion Reference.incomplete in
  (handle Reference.world load_dotenv Reference.incomplete = (Ok true, s1) /\
   first_missing (environ Reference.world s1) = Some "DB_PASSWORD") /\
  (outcome_of r = Halted (SystemExit 1) /\
   calls (trace r) = [load_dotenv] /\
   In (nl ++ "Error details: " ++ exn_msg (missing "DB_PASSWORD")) (printed (trace r)) /\
   final r = s1).
Proof.
  split.
  - split; vm_compute; reflexivity.
  - apply (missing_configuration_stops_ingestion Reference.world Reference.incomplete
             (snd (handle Reference.world load_dotenv Reference.incomplete)) true).
    + vm_compute; reflexivity.
    + vm_compute; reflexivity.
Defined.

(** X6. When documents were loaded but the splitter returns no chunk (the
    files are empty), computing the average chunk size divides by zero:
    [run_ingestion] reports a [ZeroDivisionError] and exits with status 1
    after the splitter, before the embedding model is built or the
    database is contacted. *)
Theorem no_chunks_stops_ingestion (W : World) (s s2 s3 : state W)
    (config : dict pystr * dict pystr) (doc : Document) (others : list Document) :
  outcome_of (run W config_loader.load_config s) = Returned config ->
  handle W (loader_load (mk_loader "./data" "**/*.txt" "TextLoader"))
         (final (run W config_loader.load_config s))
  = (Ok (doc :: others), s2) ->
  handle W (split_documents (mk_splitter 1000 200) (doc :: others)) s2 = (Ok [], s3) ->
  let r := run W run_ingestion s in
  outcome_of r = Halted (SystemExit 1) /\
  calls (trace r)
  = [ load_dotenv; loader_load (mk_loader "./data" "**/*.txt" "TextLoader");
      split_documents (mk_splitter 1000 200) (doc :: others) ] /\
  (exists e, exn_cls e = ZeroDivisionError /\
             In (nl ++ "Error details: " ++ exn_msg e) (printed (trace r))) /\
  final r = s3.
Proof.
  intros Hconfig Hload Hsplit r; subst r.
  apply (proj1 (wp_run W run_ingestion s (fun tr o sf =>
    o = Halted (SystemExit 1) /\
    calls tr
    = [ load_dotenv; loader_load (mk_loader "./data" "**/*.txt" "TextLoader");
        split_documents (mk_splitter 1000 200) (doc :: others) ] /\
    (exists e, exn_cls e = ZeroDivisionError /\
               In (nl ++ "Error details: " ++ exn_msg e) (printed tr)) /\
    sf = s3))).
  enter_ingestion W s.
  - rewrite (run_load_config W s _ _ E) in Hconfig; cbn [outcome_of] in Hconfig.
    rewrite M in Hconfig; discriminate.
  - rewrite (run_load_config W s _ _ E) in Hload; cbn [final] in Hload.
    simpl. intros r s' E0. rewrite Hload in E0. injection E0 as <- <-.
    simpl. apply wp_try_bind; rewrite run_list_documents; cbn [outcome_of trace final].
    simpl. intros r s' E0. rewrite Hsplit in E0. injection E0 as <- <-.
    simpl. rewrite calls_prints. simpl. split; [reflexivity|]. split; [reflexivity|].
    split; [|reflexivity].
    exists (mk_exn ZeroDivisionError "integer division or modulo by zero").
    split; [reflexivity|].
    assert (P : forall x lines tr, In x (printed tr) ->
                                   In x (printed (map EvPrint lines ++ tr)%list)).
    { intros x lines tr H. induction lines; simpl; auto. }
    simpl. repeat match goal with |- _ = _ \/ _ => right end.
    apply P. simpl. auto 30.
  - rewrite (run_load_config_dotenv_fails W s _ _ E) in Hconfig; discriminate.
Qed.

Lemma no_chunks_stops_ingestion_witness :
  let r := run Reference.world run_ingestion Scenarios.blank_file in
  outcome_of r = Halted (SystemExit 1) /\
  calls (trace r)
  = [ load_dotenv; loader_load (mk_loader "./data" "**/*.txt" "TextLoader");
      split_documents (mk_splitter 1000 200)
        [mk_doc EmptyString [("source", "data/empty.txt")]] ] /\
  (exists e, exn_cls e = ZeroDivisionError /\
             In (nl ++ "Error details: " ++ exn_msg e) (printed (trace r))) /\
  final r = snd (handle Reference.world load_dotenv Scenarios.blank_file).
Proof.
  apply (no_chunks_stops_ingestion Reference.world Scenarios.blank_file
           (snd (handle Reference.world load_dotenv Scenarios.blank_file))
           (snd (handle Reference.world load_dotenv Scenarios.blank_file))
           (config_of (fun var => dict_get Reference.env_file var) oci_variables,
            config_of (fun var => dict_get Reference.env_file var) db_variables)).
  - vm_compute; reflexivity.
  - vm_compute; reflexivity.
  - vm_compute; reflexivity.
Defined.

(** Every call of [run_ingestion] has the arguments that the configuration
    read by [load_config] determines; and unless all nine variables are
    set and non-empty, nothing but [load_dotenv()] is called. *)
Lemma ingestion_calls_configured (W : World) (s : state W) :
  let env := environ W (final (run W config_loader.load_config s)) in
  let cs := calls (trace (run W run_ingestion s)) in
  Forall (configured_from env) cs /\
  (cs = [load_dotenv] \/
   Forall (fun var => ~ unset_or_empty (env var)) required_variables).
Proof.
  apply (proj1 (wp_run W run_ingestion s (fun tr _ _ =>
    Forall (configured_from (environ W (final (run W config_loader.load_config s))))
           (calls tr) /\
    (calls tr = [load_dotenv] \/
     Forall (fun var => ~ unset_or_empty
                            (environ W (final (run W config_loader.load_config s)) var))
            required_variables)))).
  enter_ingestion W s.
  - simpl. split; [repeat constructor | left; reflexivity].
  - assert (V : Forall (fun var => ~ unset_or_empty (environ W s0 var)) required_variables).
    { apply first_missing_none in M. revert M. apply Forall_impl.
      intros var T. apply truthy_true; exact T. }
    explore.
    all: rewrite ?calls_prints; simpl.
    all: split; [| right; exact V].
    all: repeat constructor.
  - simpl. split; [repeat constructor | left; reflexivity].
Qed.

(** X7. The services are only ever given the validated configuration: the
    embedding model is built from the region, the compartment and the five
    authentication entries (the compartment id is not among them), the
    connection is opened with the three database values, and the vector
    store is the one on [rag_documents] with that model and the cosine
    distance; and any call beyond [load_dotenv()] happens only when all
    nine variables are set and non-empty. *)
Theorem ingestion_uses_validated_configuration (W : World) (s : state W) :
  let env := environ W (final (run W config_loader.load_config s)) in
  let cs := calls (trace (run W run_ingestion s)) in
  Forall (configured_from env) cs /\
  (cs = [load_dotenv] \/
   Forall (fun var => ~ unset_or_empty (env var))
     [ "OCI_USER_ID"; "OCI_TENANCY_ID"; "OCI_REGION"; "OCI_KEY_FINGERPRINT";
       "OCI_PRIVATE_KEY_PATH"; "COMPARTMENT_ID"; "DB_USER"; "DB_PASSWORD"; "DB_DSN" ]).
Proof. exact (ingestion_calls_configured W s). Qed.

(** X8. The step that clears the table has four ways to end.  Without a
    failure it has run [cursor()], the [DROP TABLE] statement and
    [commit()], in that order, and prints that the table was dropped.  A
    failure ends it at the failing call: a [DatabaseError] is caught, the
    step prints that there was no table to drop and returns; any other
    exception leaves the step.  So the step never raises a
    [DatabaseError], and [commit()] is never called unless the statement
    returned. *)
Theorem clear_existing_endings (W : World) (s : state W) (connection : Connection) :
  let r := run W (clear_existing connection) s in
  match failures (trace r) with
  | [] =>
      outcome_of r = Returned tt /\
      (exists cursor,
         calls (trace r)
         = [ connection_cursor connection; cursor_execute cursor DROP_SQL;
             connection_commit connection ]) /\
      printed (trace r) = ["✓ Existing table dropped" ++ nl]
  | [(c, e, _)] =>
      last (calls (trace r)) c = c /\
      ~ In (connection_commit connection) (removelast (calls (trace r))) /\
      if is_DatabaseError e
      then outcome_of r = Returned tt /\
           printed (trace r)
           = ["✓ No existing table to drop (this is normal on first run)" ++ nl]
      else outcome_of r = Raised e /\ printed (trace r) = []
  | _ => False
  end.
Proof.
  apply (proj1 (wp_run W (clear_existing connection) s (fun tr o _ =>
    match failures tr with
    | [] =>
        o = Returned tt /\
        (exists cursor,
           calls tr
           = [ connection_cursor connection; cursor_execute cursor DROP_SQL;
               connection_commit connection ]) /\
        printed tr = ["✓ Existing table dropped" ++ nl]
    | [(c, e, _)] =>
        last (calls tr) c = c /\
        ~ In (connection_commit connection) (removelast (calls tr)) /\
        if is_DatabaseError e
        then o = Returned tt /\
             printed tr = ["✓ No existing table to drop (this is normal on first run)" ++ nl]
        else o = Raised e /\ printed tr = []
    | _ => False
    end))).
  unfold clear_existing. explore.
  all: repeat match goal with
         | H : is_DatabaseError _ = _ |- _ => rewrite H
         end.
  all: repeat split; try reflexivity; eauto.
  all: simpl; intro H;
       repeat match goal with
              | H : _ \/ _ |- _ => destruct H as [H|H]; [discriminate H|]
              end; exact H.
Qed.

End ingest_more.

(** ** Further properties of main_app.py *)

Module main_app_more.
Import main_app config_vocabulary app_vocabulary config_loader_facts wiring.
Import app_more_vocabulary main_app_facts.

Opaque config_loader.load_config.

Ltac enter_services W s :=
  unfold initialize_services, initialization_steps; simpl;
  apply wp_try_bind;
  let b := fresh "b" in
  let e := fresh "e" in
  let s1 := fresh "s" in
  let E := fresh "E" in
  let M := fresh "M" in
  destruct (handle W load_dotenv s) as [[b|e] s1] eqn:E;
  [ rewrite (run_load_config W s s1 b E); unfold load_config_trace;
    cbn [outcome_of trace final];
    destruct (first_missing (environ W s1)) eqn:M
  | rewrite (run_load_config_dotenv_fails W s s1 e E) ].

(** Every way [initialize_services] can end, with what it has called and
    rendered by then. *)
Lemma services_paths (W : World) (s : state W) :
  let env := environ W (final (run W config_loader.load_config s)) in
  let r := run W initialize_services s in
  Forall (configured_from env) (calls (trace r)) /\
  Forall (fun c => is_write c = false) (calls (trace r)) /\
  requests (trace r) = [] /\
  match outcome_of r with
  | Returned (qa, vs) =>
      rendered (trace r) = [] /\
      exists connection,
        opened (trace r) = [connection] /\
        vs = store_for env connection /\ qa = chain_for env vs
  | Raised _ => False
  | Halted StopScript =>
      exists e,
        rendered (trace r) = [st_error ("❌ Failed to initialize services: " ++ exn_msg e)]
  | Halted (SystemExit code) =>
      code = 1 /\ rendered (trace r) = [table_missing] /\
      exists c e rest,
        In (c, e, rest) (failures (trace r)) /\
        is_DatabaseError e = true /\ is_table_check c = true
  end.
Proof.
  apply (proj1 (wp_run W initialize_services s (fun tr o _ =>
    Forall (configured_from (environ W (final (run W config_loader.load_config s))))
           (calls tr) /\
    Forall (fun c => is_write c = false) (calls tr) /\
    requests tr = [] /\
    match o with
    | Returned (qa, vs) =>
        rendered tr = [] /\
        exists connection,
          opened tr = [connection] /\
          vs = store_for (environ W (final (run W config_loader.load_config s))) connection /\
          qa = chain_for (environ W (final (run W config_loader.load_config s))) vs
    | Raised _ => False
    | Halted StopScript =>
        exists e, rendered tr = [st_error ("❌ Failed to initialize services: " ++ exn_msg e)]
    | Halted (SystemExit code) =>
        code = 1 /\ rendered tr = [table_missing] /\
        exists c e rest,
          In (c, e, rest) (failures tr) /\
          is_DatabaseError e = true /\ is_table_check c = true
    end))).
  enter_services W s.
  all: explore.
  all: split; [repeat constructor|].
  all: split; [repeat constructor|].
  all: split; [reflexivity|].
  all: try (eexists; reflexivity).
  all: try (split; [reflexivity|]; eexists; repeat split; reflexivity).
  all: try (split; [reflexivity|]; split; [reflexivity|];
       do 3 eexists; split; [simpl; eauto 10|]; split; [assumption|reflexivity]).
  all: match goal with
       | |- exists e, [st_error (_ ++ ?m)] = _ => exists (mk_exn TypeError m); reflexivity
       end.
Qed.

(** X9. [initialize_services] ends in one of three ways and never lets an
    exception reach its caller: it returns the services, having rendered
    nothing; or it shows "Failed to initialize services" with the message
    of the exception and stops the script; or it shows that the table
    [rag_documents] does not exist and leaves through [sys.exit(1)], which
    happens only when the counting query or its fetch raised a
    [DatabaseError]. *)
Theorem initialize_services_endings (W : World) (s : state W) :
  let r := run W initialize_services s in
  match outcome_of r with
  | Returned _ => rendered (trace r) = []
  | Raised _ => False
  | Halted StopScript =>
      exists e,
        rendered (trace r) = [st_error ("❌ Failed to initialize services: " ++ exn_msg e)]
  | Halted (SystemExit code) =>
      code = 1 /\ rendered (trace r) = [table_missing] /\
      exists c e rest,
        In (c, e, rest) (failures (trace r)) /\
        is_DatabaseError e = true /\ is_table_check c = true
  end.
Proof.
  intro r; subst r. destruct (services_paths W s) as [_ [_ [_ H]]].
  destruct (outcome_of (run W initialize_services s)) as [[qa vs]|e|[code|]];
    try exact H. exact (proj1 H).
Qed.

(** X10. The services that [initialize_services] returns are wired
    together and built from the configuration: the vector store is the one
    on [rag_documents] with the cosine distance and the embedding model
    [cohere.embed-english-v3.0], over the one connection that was opened;
    the chain retrieves the 3 most similar chunks from that same vector
    store, returns its source documents, and generates with
    [cohere.command-r-plus] under the prompt template of the script. *)
Theorem returned_services_are_wired (W : World) (s : state W)
    (qa : RetrievalQA) (vs : OracleVS) :
  outcome_of (run W initialize_services s) = Returned (qa, vs) ->
  let env := environ W (final (run W config_loader.load_config s)) in
  exists connection,
    opened (trace (run W initialize_services s)) = [connection] /\
    vs = mk_vs connection (embeddings_for env) "rag_documents" "COSINE" /\
    qa = mk_qa (llm_for env) "stuff" (mk_retriever vs "similarity" 3) true
               (mk_prompt prompt_template ["context"; "question"]) /\
    rt_store (qa_retriever qa) = vs /\
    emb_model_id (embedding_function vs) = "cohere.embed-english-v3.0" /\
    llm_model_id (qa_llm qa) = "cohere.command-r-plus".
Proof.
  intros R env. destruct (services_paths W s) as [_ [_ [_ H]]].
  rewrite R in H. destruct H as [_ [connection [O [V Q]]]].
  exists connection. fold env in V, Q. subst vs qa. repeat split; assumption.
Qed.

Lemma returned_services_are_wired_witness :
  exists svc,
    ReferenceApp.store = Some svc /\
    outcome_of (run Reference.world initialize_services Reference.serving)
    = Returned (fst svc, snd svc) /\
    exists connection,
      opened (trace (run Reference.world initialize_services Reference.serving))
      = [connection] /\
      snd svc
      = mk_vs connection
          (embeddings_for (environ Reference.world
             (final (run Reference.world config_loader.load_config Reference.serving))))
          "rag_documents" "COSINE" /\
      fst svc
      = mk_qa (llm_for (environ Reference.world
                 (final (run Reference.world config_loader.load_config Reference.serving))))
              "stuff" (mk_retriever (snd svc) "similarity" 3) true
              (mk_prompt prompt_template ["context"; "question"]) /\
      rt_store (qa_retriever (fst svc)) = snd svc /\
      emb_model_id (embedding_function (snd svc)) = "cohere.embed-english-v3.0" /\
      llm_model_id (qa_llm (fst svc)) = "cohere.command-r-plus".
Proof.
  eexists. split; [reflexivity|]. split; [vm_compute; reflexivity|].
  apply (returned_services_are_wired Reference.world Reference.serving).
  vm_compute; reflexivity.
Defined.

(** With an empty store, obtaining the services is the spinner followed by
    [initialize_services], and ends as that function ends. *)
Lemma run_startup_cold_exact (W : World) (s : state W) :
  let init := run W initialize_services s in
  match outcome_of init with
  | Returned svc =>
      run W (startup None) s
      = mk_run (initializing :: trace init) (Returned (svc, Some svc)) (final init)
  | Halted h =>
      run W (startup None) s = mk_run (initializing :: trace init) (Halted h) (final init)
  | Raised _ => False
  end.
Proof.
  intro init. pose proof (services_paths W s) as [_ [_ [_ H]]]. fold init in H.
  unfold startup. rewrite run_try_except, run_render_then.
  cbn [cache_resource]. rewrite run_bind. fold init.
  destruct init as [tr o s1]. cbn [outcome_of trace final] in *.
  destruct o as [svc|e|h].
  - unfold and_then, or_else; cbn. rewrite app_nil_r. reflexivity.
  - destruct H.
  - reflexivity.
Qed.

(** An execution whose services are not obtained ends there. *)
Lemma run_script_stopped (W : World) (s s0 : state W) (cache : option services)
    (tr0 : list event) (h : halt) (q : string) (b : bool) :
  run W (startup cache) s = mk_run tr0 (Halted h) s0 ->
  run W (script cache q b) s = mk_run (page_head ++ tr0)%list (Halted h) s0.
Proof.
  intro H. unfold script. rewrite !run_render_then, run_bind, H. reflexivity.
Qed.

Lemma status_query_not_write (c : call) : is_status_query c = true -> is_write c = false.
Proof.
  destruct c; simpl; intro H; try reflexivity; try discriminate.
  rewrite H. reflexivity.
Qed.

(** The calls of an execution whose services are obtained. *)
Lemma script_calls (W : World) (s s0 : state W) (cache cache' : option services)
    (svc : services) (tr0 : list event) (q : string) (b : bool) :
  run W (startup cache) s = mk_run tr0 (Returned (svc, cache')) s0 ->
  exists status,
    calls (trace (run W (script cache q b) s))
    = (calls tr0
       ++ (if b && negb (String.eqb q EmptyString) then [qa_invoke (fst svc) q] else [])
       ++ status)%list /\
    Forall (fun c => is_status_query c = true) status.
Proof.
  intro H. rewrite (run_script W s s0 cache cache' svc tr0 q b H). cbn [trace].
  destruct (question_block_returns W s0 (fst svc) q b) as [_ Cb].
  destruct (sidebar_returns W (final (run W (question_block (fst svc) q b) s0)) (snd svc))
    as [_ [Cs _]].
  eexists. split; [|exact Cs].
  rewrite !calls_app, Cb. cbn [page_head widgets page_foot calls app].
  rewrite app_nil_r. reflexivity.
Qed.

(** X11. The chat app never changes the database: in every execution of
    the script, with an empty or a filled store, no call inserts
    documents, commits, or executes a statement other than the counting
    query. *)
Theorem app_never_writes (W : World) (s : state W) (cache : option services)
    (q : string) (b : bool) :
  Forall (fun c => is_write c = false) (calls (trace (run W (script cache q b) s))).
Proof.
  assert (A : forall qa : RetrievalQA,
            Forall (fun c => is_write c = false)
                   (if b && negb (String.eqb q EmptyString) then [qa_invoke qa q] else [])).
  { intro qa. destruct (b && negb (String.eqb q EmptyString)); repeat constructor. }
  destruct cache as [svc|].
  - destruct (script_calls W s s (Some svc) (Some svc) svc _ q b (run_startup_warm W s svc))
      as [status [C St]].
    rewrite C. cbn [calls app]. apply Forall_app. split; [apply A|].
    revert St. apply Forall_impl. exact status_query_not_write.
  - pose proof (run_startup_cold_exact W s) as X. cbn zeta in X.
    destruct (services_paths W s) as [_ [Wr _]].
    destruct (outcome_of (run W initialize_services s)) as [svc|e|h].
    + destruct (script_calls W s _ None (Some svc) svc _ q b X) as [status [C St]].
      rewrite C. cbn [calls initializing]. apply Forall_app. split; [exact Wr|].
      apply Forall_app. split; [apply A|].
      revert St. apply Forall_impl. exact status_query_not_write.
    + destruct X.
    + rewrite (run_script_stopped W s _ None _ h q b X). cbn [trace].
      rewrite calls_app. cbn [page_head calls app initializing]. exact Wr.
Qed.

(** X12. When [initialize_services] does not return, the execution of the
    script ends with it: after the page head and the spinner nothing but
    the events of the initialization happens, so no widget is rendered, no
    request is sent even if a question was submitted, and the store stays
    empty, so that the next execution initializes again. *)
Theorem failed_initialization_stops_the_script (W : World) (s : state W)
    (q : string) (b : bool) (h : halt) :
  outcome_of (run W initialize_services s) = Halted h ->
  let init := run W initialize_services s in
  let r := run W (script None q b) s in
  r = mk_run (page_head ++ initializing :: trace init)%list (Halted h) (final init) /\
  requests (trace r) = [] /\
  store_after None (outcome_of r) = None.
Proof.
  intros H init r.
  pose proof (run_startup_cold_exact W s) as X. cbn zeta in X. rewrite H in X.
  assert (R : r = mk_run (page_head ++ initializing :: trace init)%list (Halted h)
                         (final init)).
  { subst r. exact (run_script_stopped W s _ None _ h q b X). }
  split; [exact R|]. rewrite R. cbn [trace outcome_of store_after].
  split; [|reflexivity].
  rewrite requests_app. cbn [page_head requests app initializing].
  destruct (services_paths W s) as [_ [_ [Rq _]]]. exact Rq.
Qed.

Lemma failed_initialization_stops_the_script_witness :
  let init := run Reference.world initialize_services Scenarios.no_table in
  let r := run Reference.world (script None "What is OCI Compute?" true)
               Scenarios.no_table in
  outcome_of init = Halted (SystemExit 1) /\
  (r = mk_run (page_head ++ initializing :: trace init)%list (Halted (SystemExit 1))
              (final init) /\
   requests (trace r) = [] /\
   store_after None (outcome_of r) = None).
Proof.
  split.
  - vm_compute; reflexivity.
  - apply (failed_initialization_stops_the_script Reference.world Scenarios.no_table).
    vm_compute; reflexivity.
Defined.

Transparent main_app.question_block main_app.sidebar.

(** X13. The question block always returns, also when the chain raises.
    It sends a request, and exactly one, only when the button was pressed
    and the question is not empty; pressing the button with an empty
    question only renders the warning, and without the button nothing
    happens at all. *)
Theorem question_block_behaviour (W : World) (s : state W) (qa : RetrievalQA)
    (q : string) (b : bool) :
  let r := run W (question_block qa q b) s in
  outcome_of r = Returned tt /\
  calls (trace r)
  = (if b && negb (String.eqb q EmptyString) then [qa_invoke qa q] else []) /\
  trace (run W (question_block qa EmptyString true) s) = [EvRender empty_question] /\
  trace (run W (question_block qa q false) s) = [].
Proof.
  intro r; subst r.
  destruct (question_block_returns W s qa q b) as [R C].
  split; [exact R|]. split; [exact C|]. split; reflexivity.
Qed.


Opaque main_app.question_block main_app.sidebar.

End main_app_more.

(** ** The two scripts together *)

Module scripts_more.
Import config_vocabulary wiring.

Lemma embeddings_for_ext (env env' : string -> pystr) :
  (forall var,
     In var [ "OCI_USER_ID"; "OCI_TENANCY_ID"; "OCI_REGION"; "OCI_KEY_FINGERPRINT";
              "OCI_PRIVATE_KEY_PATH"; "COMPARTMENT_ID" ] ->
     env var = env' var) ->
  embeddings_for env = embeddings_for env'.
Proof.
  intro H. unfold embeddings_for.
  rewrite (H "OCI_USER_ID"), (H "OCI_TENANCY_ID"), (H "OCI_REGION"),
    (H "OCI_KEY_FINGERPRINT"), (H "OCI_PRIVATE_KEY_PATH"), (H "COMPARTMENT_ID");
    simpl; auto 10.
Qed.

(** X15. The chat app reads what ingestion writes.  When both scripts read
    the same six OCI values, the vector store that [initialize_services]
    returns is on the same table, with the same distance and the same
    embedding model (built with the same endpoint, compartment and
    credentials) as every vector store through which [run_ingestion] adds
    documents, so questions are embedded the way the chunks were. *)
Theorem app_reads_what_ingestion_writes (W W' : World) (s : state W) (s' : state W')
    (store : OracleVS) (chunks : list Document) (qa : RetrievalQA) (store' : OracleVS) :
  In (add_documents store chunks) (calls (trace (run W ingest.run_ingestion s))) ->
  outcome_of (run W' main_app.initialize_services s') = Returned (qa, store') ->
  (forall var,
     In var [ "OCI_USER_ID"; "OCI_TENANCY_ID"; "OCI_REGION"; "OCI_KEY_FINGERPRINT";
              "OCI_PRIVATE_KEY_PATH"; "COMPARTMENT_ID" ] ->
     environ W (final (run W config_loader.load_config s)) var
     = environ W' (final (run W' config_loader.load_config s')) var) ->
  table_name store' = table_name store /\
  distance_strategy store' = distance_strategy store /\
  embedding_function store' = embedding_function store /\
  rt_store (qa_retriever qa) = store'.
Proof.
  intros Hadd Hinit Henv.
  destruct (ingest_more.ingestion_calls_configured W s) as [F _].
  cbn zeta in F. rewrite Forall_forall in F. specialize (F _ Hadd).
  unfold configured_from in F.
  destruct (main_app_more.services_paths W' s') as [_ [_ [_ P]]].
  rewrite Hinit in P. destruct P as [_ [connection [_ [V Q]]]].
  subst qa. split; [|split; [|split]]; try reflexivity;
    rewrite F, V; unfold store_for;
    cbn [table_name distance_strategy embedding_function]; try reflexivity.
  symmetry. apply embeddings_for_ext. exact Henv.
Qed.

Lemma app_reads_what_ingestion_writes_witness :
  let env := fun var => dict_get Reference.env_file var in
  let store := store_for env (mk_conn 0) in
  let chunks := [Reference.compute_txt; Reference.storage_txt] in
  exists svc,
    ReferenceApp.store = Some svc /\
    In (add_documents store chunks)
       (calls (trace (run Reference.world ingest.run_ingestion Reference.populated))) /\
    (table_name (snd svc) = table_name store /\
     distance_strategy (snd svc) = distance_strategy store /\
     embedding_function (snd svc) = embedding_function store /\
     rt_store (qa_retriever (fst svc)) = snd svc).
Proof.
  intros env store chunks. eexists. split; [reflexivity|].
  assert (A : In (add_documents store chunks)
                 (calls (trace (run Reference.world ingest.run_ingestion
                                    Reference.populated)))).
  { vm_compute. do 9 right. left. reflexivity. }
  split; [exact A|].
  apply (app_reads_what_ingestion_writes Reference.world Reference.world
           Reference.populated Reference.serving store chunks).
  - exact A.
  - vm_compute; reflexivity.
  - intros var _. vm_compute. reflexivity.
Defined.

End scripts_more.
